(** * The CLAP plugin-side adapter ([examples/plugins/plugin.cc])

    A shallow embedding of [clap::Plugin], the glue between the C function
    table that a host drives and the virtual surface that a concrete plugin
    overrides.  The entry points are written in a small monad that threads
    the adapter object and distinguishes a normal return from
    [std::terminate] and from a failed [assert]. *)

From Stdlib Require Import ZArith String Ascii List Bool Lia DecimalString.
Import ListNotations.

Local Open Scope Z_scope.
Local Open Scope string_scope.

Module clap.

(** ** Data of the ABI *)

(** The thread a call runs on.  The host's thread-check answers are a
    function of it. *)
Inductive thread : Type := MainThread | AudioThread | WorkerThread.

Definition clap_id := Z.
Definition clap_log_severity := Z.
Definition clap_process_status := Z.

Definition CLAP_EXT_RENDER : string := "clap/render".

(** Constants and opaque types of the headers that are not part of the
    adapter's translation unit ([clap.h] and the extension headers other than
    [ext/render.h]). *)
Class ClapHeaders : Type := {
  clap_plugin_descriptor : Type;
  clap_process : Type;
  clap_param_value : Type;
  CLAP_LOG_HOST_MISBEHAVING : clap_log_severity;
  CLAP_PROCESS_ERROR : clap_process_status;
  CLAP_EXT_LOG : string;
  CLAP_EXT_THREAD_CHECK : string;
  CLAP_EXT_THREAD_POOL : string;
  CLAP_EXT_AUDIO_PORTS : string;
  CLAP_EXT_EVENT_LOOP : string;
  CLAP_EXT_EVENT_FILTER : string;
  CLAP_EXT_FILE_REFERENCE : string;
  CLAP_EXT_LATENCY : string;
  CLAP_EXT_GUI : string;
  CLAP_EXT_PARAMS : string;
  CLAP_EXT_TRACK_INFO : string;
  CLAP_EXT_STATE : string;
  CLAP_EXT_NOTE_NAME : string
}.

(** [clap_host_log]: [log_fn] tells whether the [log] function pointer is
    set; calling it hands the message to the host, which the model records
    in the trace. *)
Record clap_host_log : Type := { log_fn : bool }.

(** [clap_host_thread_check]: each query is a possibly null function
    pointer. *)
Record clap_host_thread_check : Type := {
  is_audio_thread : option (thread -> bool);
  is_main_thread : option (thread -> bool)
}.

Record clap_track_info : Type := {
  channel_count : Z;
  channel_map : Z
}.

(** [clap_host_track_info]: [get] is a possibly null function pointer; a
    call answers [Some info] for [true] with [info] written, [None] for
    [false]. *)
Record clap_host_track_info : Type := {
  get : option (option clap_track_info)
}.

(** What a [const void *] handed out by [clap_host::extension] points to. *)
Inductive host_table : Type :=
| HostLogTable (t : clap_host_log)
| HostThreadCheckTable (t : clap_host_thread_check)
| HostTrackInfoTable (t : clap_host_track_info)
| HostOpaqueTable (tag : string).

(** [clap_host]: the extension lookup may itself be a null pointer. *)
Record clap_host : Type := {
  host_extension : option (string -> option host_table)
}.

(** The host interfaces the adapter stores but never calls in this file. *)
Inductive stored_iface : Type :=
| ThreadPool | AudioPorts | EventLoop | EventFilter | FileReference
| Latency | Gui | Params | State | NoteName.

Definition stored_iface_eqb (x y : stored_iface) : bool :=
  match x, y with
  | ThreadPool, ThreadPool | AudioPorts, AudioPorts | EventLoop, EventLoop
  | EventFilter, EventFilter | FileReference, FileReference
  | Latency, Latency | Gui, Gui | Params, Params | State, State
  | NoteName, NoteName => true
  | _, _ => false
  end.

(** The static entry points a slot of [clap_plugin] can hold. *)
Inductive entry_point : Type :=
| FnClapInit | FnClapDestroy | FnClapExtension | FnClapProcess
| FnClapActivate | FnClapDeactivate | FnClapStartProcessing
| FnClapStopProcessing.

(** [clap_param_info]: the adapter reads the [id] of an entry only. *)
Record clap_param_info : Type := { id : clap_id }.

(** The virtual methods of [Plugin], for the bookkeeping of which of them a
    call reached. *)
Inductive hook : Type :=
| H_init | H_activate | H_deactivate | H_startProcessing | H_stopProcessing
| H_process | H_extension | H_implementsAudioPorts | H_audioPortsSetConfig
| H_implementsParams | H_paramsCount | H_paramsInfo | H_paramsEnumValue
| H_paramsValue | H_paramsSetValue | H_paramsValueToText
| H_paramsTextToValue.

Definition hook_eqb (x y : hook) : bool :=
  match x, y with
  | H_init, H_init | H_activate, H_activate | H_deactivate, H_deactivate
  | H_startProcessing, H_startProcessing
  | H_stopProcessing, H_stopProcessing | H_process, H_process
  | H_extension, H_extension
  | H_implementsAudioPorts, H_implementsAudioPorts
  | H_audioPortsSetConfig, H_audioPortsSetConfig
  | H_implementsParams, H_implementsParams | H_paramsCount, H_paramsCount
  | H_paramsInfo, H_paramsInfo | H_paramsEnumValue, H_paramsEnumValue
  | H_paramsValue, H_paramsValue | H_paramsSetValue, H_paramsSetValue
  | H_paramsValueToText, H_paramsValueToText
  | H_paramsTextToValue, H_paramsTextToValue => true
  | _, _ => false
  end.

(** What the outside world sees of a call: a line handed to the host's log,
    a line on [std::clog], the invocation of a virtual method. *)
Inductive event : Type :=
| HostLog (severity : clap_log_severity) (msg : string)
| Clog (msg : string)
| Invoked (h : hook).

(** The interface tables the plugin side hands to the host. *)
Inductive plugin_table (author_table : Type) : Type :=
| pluginRender_
| pluginTrackInfo_
| pluginAudioPorts_
| pluginParams_
| authorTable (x : author_table).
Arguments pluginRender_ {author_table}.
Arguments pluginTrackInfo_ {author_table}.
Arguments pluginAudioPorts_ {author_table}.
Arguments pluginParams_ {author_table}.
Arguments authorTable {author_table} x.

(** 32-bit conversions. *)
Definition to_uint32 (z : Z) : Z := z mod 2 ^ 32.

(** [operator<<] on an integer. *)
Definition show (z : Z) : string := NilZero.string_of_int (Z.to_int z).

Definition endl : string := String (ascii_of_nat 10) EmptyString.

Section Adapter.

Context {headers : ClapHeaders}.

(** ** The plugin author's surface *)

(** Modelled from the spec: the declaration of the virtual methods of
    [Plugin] lives in plugin.hh, which is absent.  A concrete plugin is a
    type [A] of its own members together with the overrides, which see those
    members only.  A method that returns [bool] and fills an out-parameter
    answers with an [option].  The capability predicates and the methods
    that [isValidParamId] (a [const] member) calls cannot change the object;
    [paramsCount] answers a [uint32_t]. *)
Class PluginAuthor (A : Type) : Type := {
  author_table : Type;
  init : A -> bool * A;
  activate : Z -> A -> bool * A;
  deactivate : A -> A;
  startProcessing : A -> bool * A;
  stopProcessing : A -> A;
  process : clap_process -> A -> clap_process_status * A;
  extension : string -> A -> option author_table * A;
  implementsAudioPorts : A -> bool;
  audioPortsSetConfig : clap_id -> A -> bool * A;
  implementsParams : A -> bool;
  paramsCount : A -> Z;
  paramsInfo : Z -> A -> option clap_param_info;
  paramsEnumValue : clap_id -> Z -> A -> option clap_param_value * A;
  paramsValue : clap_id -> A -> option clap_param_value * A;
  paramsSetValue :
    clap_id -> clap_param_value -> clap_param_value -> A -> bool * A;
  paramsValueToText :
    clap_id -> clap_param_value -> Z -> A -> option string * A;
  paramsTextToValue : clap_id -> string -> A -> option clap_param_value * A
}.

Context {A : Type} {author : PluginAuthor A}.

(** [NDEBUG] of the build: with it, [assert] expands to nothing. *)
Variable NDEBUG : bool.

(** ** The adapter object *)

(** [clap_plugin], the table the host calls through. *)
Record clap_plugin : Type := {
  plugin_desc : clap_plugin_descriptor;
  plugin_init : option entry_point;
  plugin_destroy : option entry_point;
  plugin_extension : option entry_point;
  plugin_process : option entry_point;
  plugin_activate : option entry_point;
  plugin_deactivate : option entry_point;
  plugin_start_processing : option entry_point;
  plugin_stop_processing : option entry_point
}.

(** [Plugin].  [derived] holds the members of the concrete subclass;
    [trace] is the record of what left the adapter, newest first. *)
Record Plugin : Type := {
  plugin_ : clap_plugin;
  host_ : clap_host;
  hostLog_ : option clap_host_log;
  hostThreadCheck_ : option clap_host_thread_check;
  hostTrackInfo_ : option clap_host_track_info;
  hostStored_ : stored_iface -> option host_table;
  hasTrackInfo_ : bool;
  trackInfo_ : clap_track_info;
  isActive_ : bool;
  isProcessing_ : bool;
  sampleRate_ : Z;
  derived : A;
  trace : list event
}.

Definition set_plugin_ (x : clap_plugin) (p : Plugin) : Plugin :=
  {| plugin_ := x; host_ := host_ p; hostLog_ := hostLog_ p;
     hostThreadCheck_ := hostThreadCheck_ p;
     hostTrackInfo_ := hostTrackInfo_ p; hostStored_ := hostStored_ p;
     hasTrackInfo_ := hasTrackInfo_ p; trackInfo_ := trackInfo_ p;
     isActive_ := isActive_ p; isProcessing_ := isProcessing_ p;
     sampleRate_ := sampleRate_ p; derived := derived p; trace := trace p |}.

Definition set_hostLog_ (x : option clap_host_log) (p : Plugin) : Plugin :=
  {| plugin_ := plugin_ p; host_ := host_ p; hostLog_ := x;
     hostThreadCheck_ := hostThreadCheck_ p;
     hostTrackInfo_ := hostTrackInfo_ p; hostStored_ := hostStored_ p;
     hasTrackInfo_ := hasTrackInfo_ p; trackInfo_ := trackInfo_ p;
     isActive_ := isActive_ p; isProcessing_ := isProcessing_ p;
     sampleRate_ := sampleRate_ p; derived := derived p; trace := trace p |}.

Definition set_hostThreadCheck_ (x : option clap_host_thread_check)
    (p : Plugin) : Plugin :=
  {| plugin_ := plugin_ p; host_ := host_ p; hostLog_ := hostLog_ p;
     hostThreadCheck_ := x;
     hostTrackInfo_ := hostTrackInfo_ p; hostStored_ := hostStored_ p;
     hasTrackInfo_ := hasTrackInfo_ p; trackInfo_ := trackInfo_ p;
     isActive_ := isActive_ p; isProcessing_ := isProcessing_ p;
     sampleRate_ := sampleRate_ p; derived := derived p; trace := trace p |}.

Definition set_hostTrackInfo_ (x : option clap_host_track_info)
    (p : Plugin) : Plugin :=
  {| plugin_ := plugin_ p; host_ := host_ p; hostLog_ := hostLog_ p;
     hostThreadCheck_ := hostThreadCheck_ p;
     hostTrackInfo_ := x; hostStored_ := hostStored_ p;
     hasTrackInfo_ := hasTrackInfo_ p; trackInfo_ := trackInfo_ p;
     isActive_ := isActive_ p; isProcessing_ := isProcessing_ p;
     sampleRate_ := sampleRate_ p; derived := derived p; trace := trace p |}.

Definition set_hostStored_ (k : stored_iface) (x : option host_table)
    (p : Plugin) : Plugin :=
  {| plugin_ := plugin_ p; host_ := host_ p; hostLog_ := hostLog_ p;
     hostThreadCheck_ := hostThreadCheck_ p;
     hostTrackInfo_ := hostTrackInfo_ p;
     hostStored_ := fun k' => if stored_iface_eqb k k' then x
                              else hostStored_ p k';
     hasTrackInfo_ := hasTrackInfo_ p; trackInfo_ := trackInfo_ p;
     isActive_ := isActive_ p; isProcessing_ := isProcessing_ p;
     sampleRate_ := sampleRate_ p; derived := derived p; trace := trace p |}.

Definition set_trackInfo (has : bool) (x : clap_track_info) (p : Plugin)
    : Plugin :=
  {| plugin_ := plugin_ p; host_ := host_ p; hostLog_ := hostLog_ p;
     hostThreadCheck_ := hostThreadCheck_ p;
     hostTrackInfo_ := hostTrackInfo_ p; hostStored_ := hostStored_ p;
     hasTrackInfo_ := has; trackInfo_ := x;
     isActive_ := isActive_ p; isProcessing_ := isProcessing_ p;
     sampleRate_ := sampleRate_ p; derived := derived p; trace := trace p |}.

Definition set_isActive_ (x : bool) (p : Plugin) : Plugin :=
  {| plugin_ := plugin_ p; host_ := host_ p; hostLog_ := hostLog_ p;
     hostThreadCheck_ := hostThreadCheck_ p;
     hostTrackInfo_ := hostTrackInfo_ p; hostStored_ := hostStored_ p;
     hasTrackInfo_ := hasTrackInfo_ p; trackInfo_ := trackInfo_ p;
     isActive_ := x; isProcessing_ := isProcessing_ p;
     sampleRate_ := sampleRate_ p; derived := derived p; trace := trace p |}.

Definition set_isProcessing_ (x : bool) (p : Plugin) : Plugin :=
  {| plugin_ := plugin_ p; host_ := host_ p; hostLog_ := hostLog_ p;
     hostThreadCheck_ := hostThreadCheck_ p;
     hostTrackInfo_ := hostTrackInfo_ p; hostStored_ := hostStored_ p;
     hasTrackInfo_ := hasTrackInfo_ p; trackInfo_ := trackInfo_ p;
     isActive_ := isActive_ p; isProcessing_ := x;
     sampleRate_ := sampleRate_ p; derived := derived p; trace := trace p |}.

Definition set_sampleRate_ (x : Z) (p : Plugin) : Plugin :=
  {| plugin_ := plugin_ p; host_ := host_ p; hostLog_ := hostLog_ p;
     hostThreadCheck_ := hostThreadCheck_ p;
     hostTrackInfo_ := hostTrackInfo_ p; hostStored_ := hostStored_ p;
     hasTrackInfo_ := hasTrackInfo_ p; trackInfo_ := trackInfo_ p;
     isActive_ := isActive_ p; isProcessing_ := isProcessing_ p;
     sampleRate_ := x; derived := derived p; trace := trace p |}.

Definition set_derived (x : A) (p : Plugin) : Plugin :=
  {| plugin_ := plugin_ p; host_ := host_ p; hostLog_ := hostLog_ p;
     hostThreadCheck_ := hostThreadCheck_ p;
     hostTrackInfo_ := hostTrackInfo_ p; hostStored_ := hostStored_ p;
     hasTrackInfo_ := hasTrackInfo_ p; trackInfo_ := trackInfo_ p;
     isActive_ := isActive_ p; isProcessing_ := isProcessing_ p;
     sampleRate_ := sampleRate_ p; derived := x; trace := trace p |}.

Definition record (e : event) (p : Plugin) : Plugin :=
  {| plugin_ := plugin_ p; host_ := host_ p; hostLog_ := hostLog_ p;
     hostThreadCheck_ := hostThreadCheck_ p;
     hostTrackInfo_ := hostTrackInfo_ p; hostStored_ := hostStored_ p;
     hasTrackInfo_ := hasTrackInfo_ p; trackInfo_ := trackInfo_ p;
     isActive_ := isActive_ p; isProcessing_ := isProcessing_ p;
     sampleRate_ := sampleRate_ p; derived := derived p;
     trace := e :: trace p |}.

(** ** The monad of the entry points *)

Inductive outcome (R : Type) : Type :=
| Returned (r : R) (p : Plugin)
| Terminated (p : Plugin)
| AssertFailed (p : Plugin).
Arguments Returned {R} r p.
Arguments Terminated {R} p.
Arguments AssertFailed {R} p.

Definition M (R : Type) : Type := thread -> Plugin -> outcome R.

Definition ret {R : Type} (r : R) : M R := fun _ p => Returned r p.

Definition bind {R S : Type} (c : M R) (k : R -> M S) : M S :=
  fun t p =>
    match c t p with
    | Returned r p' => k r t p'
    | Terminated p' => Terminated p'
    | AssertFailed p' => AssertFailed p'
    end.

Definition this : M Plugin := fun _ p => Returned p p.

Definition current_thread : M thread := fun t p => Returned t p.

Definition modify (f : Plugin -> Plugin) : M unit :=
  fun _ p => Returned tt (f p).

(** [std::terminate()]. *)
Definition terminate {R : Type} : M R := fun _ p => Terminated p.

(** [assert(b)]. *)
Definition assert (b : bool) : M unit :=
  fun _ p => if NDEBUG || b then Returned tt p else AssertFailed p.

(** The final object of a call, however it ended. *)
Definition final {R : Type} (o : outcome R) : Plugin :=
  match o with
  | Returned _ p => p
  | Terminated p => p
  | AssertFailed p => p
  end.

Notation "x <- c ;; k" := (bind c (fun x => k))
  (at level 61, c at next level, right associativity).
Notation "c ;;; k" := (bind c (fun _ => k))
  (at level 61, right associativity).

(** Calling a virtual method: the override runs on the subclass members. *)
Definition invoke {R : Type} (h : hook) (f : A -> R * A) : M R :=
  fun _ p =>
    let (r, a) := f (derived p) in
    Returned r (set_derived a (record (Invoked h) p)).

Definition invoke_void (h : hook) (f : A -> A) : M unit :=
  invoke h (fun a => (tt, f a)).

(** A [const] virtual method reads the members and leaves them alone. *)
Definition invoke_const {R : Type} (h : hook) (f : A -> R) : M R :=
  fun _ p => Returned (f (derived p)) (record (Invoked h) p).

(** ** Construction *)

(** Modelled from the spec: the in-class initialisers of the members are in
    plugin.hh, which is absent; an instance starts inactive, not processing,
    with the sample rate at its sentinel 0, no track info and no host
    interface resolved.  The slots of [plugin_] are set as [Plugin::Plugin]
    of plugin.cc sets them; [plugin_data] is the object itself and is not
    represented. *)
Definition Plugin_new (desc : clap_plugin_descriptor) (host : clap_host)
    (a : A) : Plugin :=
  {| plugin_ :=
       {| plugin_desc := desc;
          plugin_init := Some FnClapInit;
          plugin_destroy := Some FnClapDestroy;
          plugin_extension := None;
          plugin_process := None;
          plugin_activate := None;
          plugin_deactivate := None;
          plugin_start_processing := None;
          plugin_stop_processing := None |};
     host_ := host;
     hostLog_ := None;
     hostThreadCheck_ := None;
     hostTrackInfo_ := None;
     hostStored_ := fun _ => None;
     hasTrackInfo_ := false;
     trackInfo_ := {| channel_count := 0; channel_map := 0 |};
     isActive_ := false;
     isProcessing_ := false;
     sampleRate_ := 0;
     derived := a;
     trace := [] |}.

(** ** Logging *)

Definition canUseHostLog (p : Plugin) : bool :=
  match hostLog_ p with
  | Some l => log_fn l
  | None => false
  end.

Definition log (severity : clap_log_severity) (msg : string) : M unit :=
  self <- this ;;
  if canUseHostLog self then modify (record (HostLog severity msg))
  else modify (record (Clog msg)).

Definition hostMisbehaving (msg : string) : M unit :=
  log CLAP_LOG_HOST_MISBEHAVING msg.

(** ** Interface consistency check *)

Definition canUseThreadCheck (p : Plugin) : bool :=
  match hostThreadCheck_ p with
  | Some tc =>
      match is_audio_thread tc, is_main_thread tc with
      | Some _, Some _ => true
      | _, _ => false
      end
  | None => false
  end.

(** Modelled from the spec: [canUseTrackInfo] is defined in plugin.hh, which
    is absent; the capability is usable when its query function is
    present. *)
Definition canUseTrackInfo (p : Plugin) : bool :=
  match hostTrackInfo_ p with
  | Some ti => match get ti with Some _ => true | None => false end
  | None => false
  end.

(** Modelled from the spec: the accessor [isActive()] is defined in
    plugin.hh, which is absent; it reads the lifecycle flag. *)
Definition isActive (p : Plugin) : bool := isActive_ p.

(** ** Thread checking *)

(** The condition under which the main-thread guards return at once:
    [!hostThreadCheck_ || !hostThreadCheck_->is_main_thread ||
     hostThreadCheck_->is_main_thread(host_)]. *)
Definition mainThreadPasses (t : thread) (p : Plugin) : bool :=
  match hostThreadCheck_ p with
  | None => true
  | Some tc =>
      match is_main_thread tc with
      | None => true
      | Some f => f t
      end
  end.

(** The same for the audio thread. *)
Definition audioThreadPasses (t : thread) (p : Plugin) : bool :=
  match hostThreadCheck_ p with
  | None => true
  | Some tc =>
      match is_audio_thread tc with
      | None => true
      | Some f => f t
      end
  end.

Definition checkMainThread : M unit :=
  self <- this ;;
  t <- current_thread ;;
  if mainThreadPasses t self then ret tt
  else terminate.

Definition ensureMainThread (method : string) : M unit :=
  self <- this ;;
  t <- current_thread ;;
  if mainThreadPasses t self then ret tt
  else
    hostMisbehaving
      ("Host called the method " ++ method
       ++ "() on wrong thread! It must be called on main thread!") ;;;
    terminate.

Definition ensureAudioThread (method : string) : M unit :=
  self <- this ;;
  t <- current_thread ;;
  if audioThreadPasses t self then ret tt
  else
    hostMisbehaving
      ("Host called the method " ++ method
       ++ "() on wrong thread! It must be called on audio thread!") ;;;
    terminate.

(** ** Utilities *)

(** [initInterface<T>]: [ptr]/[store] read and write the member, [cast] is
    the [static_cast] from what the host handed out.  A table of another
    interface than the one asked for is outside the ABI and counts as
    absent. *)
Definition initInterface {T : Type} (ptr : Plugin -> option T)
    (store : option T -> Plugin -> Plugin) (cast : host_table -> option T)
    (ext_id : string) : M unit :=
  self <- this ;;
  assert (match ptr self with None => true | Some _ => false end) ;;;
  match host_extension (host_ self) with
  | Some lookup =>
      modify (store match lookup ext_id with
                    | Some tbl => cast tbl
                    | None => None
                    end)
  | None => ret tt
  end.

Definition as_log (tbl : host_table) : option clap_host_log :=
  match tbl with HostLogTable t => Some t | _ => None end.

Definition as_thread_check (tbl : host_table)
    : option clap_host_thread_check :=
  match tbl with HostThreadCheckTable t => Some t | _ => None end.

Definition as_track_info (tbl : host_table) : option clap_host_track_info :=
  match tbl with HostTrackInfoTable t => Some t | _ => None end.

Definition initStored (k : stored_iface) (ext_id : string) : M unit :=
  initInterface (fun p => hostStored_ p k) (set_hostStored_ k) Some ext_id.

Definition initInterfaces : M unit :=
  initInterface hostLog_ set_hostLog_ as_log CLAP_EXT_LOG ;;;
  initInterface hostThreadCheck_ set_hostThreadCheck_ as_thread_check
    CLAP_EXT_THREAD_CHECK ;;;
  initStored ThreadPool CLAP_EXT_THREAD_POOL ;;;
  initStored AudioPorts CLAP_EXT_AUDIO_PORTS ;;;
  initStored EventLoop CLAP_EXT_EVENT_LOOP ;;;
  initStored EventFilter CLAP_EXT_EVENT_FILTER ;;;
  initStored FileReference CLAP_EXT_FILE_REFERENCE ;;;
  initStored Latency CLAP_EXT_LATENCY ;;;
  initStored Gui CLAP_EXT_GUI ;;;
  initStored Params CLAP_EXT_PARAMS ;;;
  initInterface hostTrackInfo_ set_hostTrackInfo_ as_track_info
    CLAP_EXT_TRACK_INFO ;;;
  initStored State CLAP_EXT_STATE ;;;
  initStored NoteName CLAP_EXT_NOTE_NAME.

Definition initTrackInfo : M unit :=
  checkMainThread ;;;
  self <- this ;;
  assert (negb (hasTrackInfo_ self)) ;;;
  if negb (canUseTrackInfo self) then ret tt
  else
    match hostTrackInfo_ self with
    | Some {| get := Some (Some info) |} => modify (set_trackInfo true info)
    | _ => modify (set_trackInfo false (trackInfo_ self))
    end.

(** ** CLAP interfaces *)

(** Every entry point starts with [from(plugin)], which terminates on a
    null handle or a null [plugin_data]; the entry points below are what
    runs behind a handle that resolves to the object. *)

(** The assignments at the head of [clapInit]. *)
Definition wire (pl : clap_plugin) : clap_plugin :=
  {| plugin_desc := plugin_desc pl;
     plugin_init := plugin_init pl;
     plugin_destroy := plugin_destroy pl;
     plugin_extension := Some FnClapExtension;
     plugin_process := Some FnClapProcess;
     plugin_activate := Some FnClapActivate;
     plugin_deactivate := Some FnClapDeactivate;
     plugin_start_processing := Some FnClapStartProcessing;
     plugin_stop_processing := Some FnClapStopProcessing |}.

Definition clapInit : M bool :=
  modify (fun self => set_plugin_ (wire (plugin_ self)) self) ;;;
  initInterfaces ;;;
  ensureMainThread "clap_plugin.init" ;;;
  initTrackInfo ;;;
  invoke H_init init.

Definition clapDeactivate : M unit :=
  ensureMainThread "clap_plugin.deactivate" ;;;
  self <- this ;;
  if negb (isActive_ self) then
    hostMisbehaving "The plugin was deactivated twice."
  else
    invoke_void H_deactivate deactivate.

Definition clapActivate (sample_rate : Z) : M bool :=
  ensureMainThread "clap_plugin.activate" ;;;
  self <- this ;;
  (if isActive_ self then
     hostMisbehaving "Plugin was activated twice" ;;;
     if negb (Z.eqb sample_rate (sampleRate_ self)) then
       hostMisbehaving
         ("The plugin was activated twice and with different sample rates: "
          ++ show (sampleRate_ self) ++ " and " ++ show sample_rate
          ++ ". The host must deactivate the plugin first." ++ endl
          ++ "Simulating deactivation.") ;;;
       clapDeactivate
     else ret tt
   else ret tt) ;;;
  if Z.leb sample_rate 0 then
    hostMisbehaving
      ("The plugin was activated with an invalid sample rates: "
       ++ show sample_rate) ;;;
    ret false
  else
    self <- this ;;
    assert (negb (isActive_ self)) ;;;
    assert (Z.eqb (sampleRate_ self) 0) ;;;
    ok <- invoke H_activate (activate sample_rate) ;;
    if negb ok then
      self <- this ;;
      assert (negb (isActive_ self)) ;;;
      assert (Z.eqb (sampleRate_ self) 0) ;;;
      ret false
    else
      modify (set_isActive_ true) ;;;
      modify (set_sampleRate_ sample_rate) ;;;
      ret true.

Definition clapStartProcessing : M bool :=
  ensureAudioThread "clap_plugin.start_processing" ;;;
  self <- this ;;
  if negb (isActive_ self) then
    hostMisbehaving
      "Host called clap_plugin.start_processing() on a deactivated plugin" ;;;
    ret false
  else if isProcessing_ self then
    hostMisbehaving "Host called clap_plugin.start_processing() twice" ;;;
    ret true
  else
    started <- invoke H_startProcessing startProcessing ;;
    modify (set_isProcessing_ started) ;;;
    ret started.

Definition clapStopProcessing : M unit :=
  ensureAudioThread "clap_plugin.stop_processing" ;;;
  self <- this ;;
  if negb (isActive_ self) then
    hostMisbehaving
      "Host called clap_plugin.stop_processing() on a deactivated plugin"
  else if negb (isProcessing_ self) then
    hostMisbehaving "Host called clap_plugin.stop_processing() twice"
  else
    invoke_void H_stopProcessing stopProcessing ;;;
    modify (set_isProcessing_ false).

Definition clapProcess (block : clap_process) : M clap_process_status :=
  ensureAudioThread "clap_plugin.process" ;;;
  self <- this ;;
  if negb (isActive_ self) then
    hostMisbehaving
      "Host called clap_plugin.process() on a deactivated plugin" ;;;
    ret CLAP_PROCESS_ERROR
  else if negb (isProcessing_ self) then
    hostMisbehaving
      "Host called clap_plugin.process() without calling clap_plugin.start_processing()" ;;;
    ret CLAP_PROCESS_ERROR
  else
    invoke H_process (process block).

(** [!strcmp(id, ext) && pred()]: the predicate is evaluated only when the
    id matches. *)
Definition matches_and (id ext : string) (h : hook) (pred : A -> bool)
    : M bool :=
  if String.eqb id ext then invoke_const h pred else ret false.

Definition clapExtension (id : string)
    : M (option (plugin_table author_table)) :=
  ensureMainThread "clap_plugin.extension" ;;;
  if String.eqb id CLAP_EXT_RENDER then ret (Some pluginRender_)
  else if String.eqb id CLAP_EXT_TRACK_INFO then ret (Some pluginTrackInfo_)
  else
    ports <- matches_and id CLAP_EXT_AUDIO_PORTS H_implementsAudioPorts
               implementsAudioPorts ;;
    if ports then ret (Some pluginAudioPorts_)
    else
      params <- matches_and id CLAP_EXT_PARAMS H_implementsParams
                  implementsParams ;;
      if params then ret (Some pluginParams_)
      else
        r <- invoke H_extension (extension id) ;;
        ret (option_map authorTable r).

Definition clapAudioPortsSetConfig (config_id : clap_id) : M bool :=
  ensureMainThread "clap_plugin_audio_ports.get_config" ;;;
  self <- this ;;
  (if isActive self then
     hostMisbehaving
       "it is illegal to call clap_audio_ports.set_config if the plugin is active"
   else ret tt) ;;;
  invoke H_audioPortsSetConfig (audioPortsSetConfig config_id).

Definition clapParamsCount : M Z :=
  ensureMainThread "clap_plugin_params.count" ;;;
  invoke_const H_paramsCount (fun a => to_uint32 (paramsCount a)).

(** [param_index] is an [int32_t], [count] a [uint32_t]: the comparison
    converts the index to unsigned. *)
Definition clapParamsIinfo (param_index : Z) : M (option clap_param_info) :=
  ensureMainThread "clap_plugin_params.info" ;;;
  count <- clapParamsCount ;;
  if Z.leb count (to_uint32 param_index) then
    hostMisbehaving
      ("called clap_plugin_params.info with an index out of bounds: "
       ++ show param_index ++ " >= " ++ show count) ;;;
    ret None
  else
    invoke_const H_paramsInfo (paramsInfo param_index).

(** The body of the loop of [isValidParamId], for the [n] indices from [i]
    on. *)
Fixpoint isValidParamId_from (n : nat) (i : Z) (param_id : clap_id)
    : M bool :=
  match n with
  | O => ret false
  | S n' =>
      r <- invoke_const H_paramsInfo (paramsInfo i) ;;
      match r with
      | None => isValidParamId_from n' (i + 1) param_id
      | Some info =>
          if Z.eqb (id info) param_id then ret true
          else isValidParamId_from n' (i + 1) param_id
      end
  end.

Definition isValidParamId (param_id : clap_id) : M bool :=
  checkMainThread ;;;
  count <- invoke_const H_paramsCount (fun a => to_uint32 (paramsCount a)) ;;
  isValidParamId_from (Z.to_nat count) 0 param_id.

Definition clapParamsEnumValue (param_id : clap_id) (value_index : Z)
    : M (option clap_param_value) :=
  ensureMainThread "clap_plugin_params.enum_value" ;;;
  valid <- isValidParamId param_id ;;
  if negb valid then
    hostMisbehaving
      ("clap_plugin_params.enum_value called with invalid param_id: "
       ++ show param_id) ;;;
    ret None
  else
    invoke H_paramsEnumValue (paramsEnumValue param_id value_index).

Definition clapParamsValue (param_id : clap_id)
    : M (option clap_param_value) :=
  ensureMainThread "clap_plugin_params.value" ;;;
  valid <- isValidParamId param_id ;;
  if negb valid then
    hostMisbehaving
      ("clap_plugin_params.value called with invalid param_id: "
       ++ show param_id) ;;;
    ret None
  else
    invoke H_paramsValue (paramsValue param_id).

Definition clapParamsSetValue (param_id : clap_id)
    (value modulation : clap_param_value) : M bool :=
  ensureMainThread "clap_plugin_params.set_value" ;;;
  self <- this ;;
  if isActive_ self then
    hostMisbehaving
      "it is forbidden to call clap_plugin_params.set_value() if the plugin is activated" ;;;
    ret false
  else
    valid <- isValidParamId param_id ;;
    if negb valid then
      hostMisbehaving
        ("clap_plugin_params.set_value called with invalid param_id: "
         ++ show param_id) ;;;
      ret false
    else
      invoke H_paramsSetValue (paramsSetValue param_id value modulation).

Definition clapParamsValueToText (param_id : clap_id)
    (value : clap_param_value) (size : Z) : M (option string) :=
  ensureMainThread "clap_plugin_params.value_to_text" ;;;
  valid <- isValidParamId param_id ;;
  if negb valid then
    hostMisbehaving
      ("clap_plugin_params.value_to_text called with invalid param_id: "
       ++ show param_id) ;;;
    ret None
  else
    invoke H_paramsValueToText (paramsValueToText param_id value size).

Definition clapParamsTextToValue (param_id : clap_id) (display : string)
    : M (option clap_param_value) :=
  ensureMainThread "clap_plugin_params.text_to_value" ;;;
  valid <- isValidParamId param_id ;;
  if negb valid then
    hostMisbehaving
      ("clap_plugin_params.text_to_value called with invalid param_id: "
       ++ show param_id) ;;;
    ret None
  else
    invoke H_paramsTextToValue (paramsTextToValue param_id display).

(** ** Vocabulary of the specifications *)

(** The lifecycle states of the data model. *)
Definition Inactive (p : Plugin) : Prop :=
  isActive_ p = false /\ sampleRate_ p = 0.

Definition Active (p : Plugin) : Prop := isActive_ p = true.

(** The event by which a host-misbehaviour diagnostic leaves the adapter:
    through the host's log when it is usable, on [std::clog] otherwise. *)
Definition misbehaviour (p : Plugin) (msg : string) : event :=
  if canUseHostLog p then HostLog CLAP_LOG_HOST_MISBEHAVING msg
  else Clog msg.

(** The object after one diagnostic and nothing else. *)
Definition report (msg : string) (p : Plugin) : Plugin :=
  record (misbehaviour p msg) p.

Definition is_invocation (h : hook) (e : event) : bool :=
  match e with
  | Invoked h' => hook_eqb h h'
  | _ => false
  end.

(** How often the virtual method [h] was reached. *)
Definition invocations (h : hook) (tr : list event) : nat :=
  length (filter (is_invocation h) tr).

(** The object after a run of events and nothing else, the first of the
    list being the newest. *)
Definition records (evs : list event) (p : Plugin) : Plugin :=
  fold_right record p evs.

(** A call is rejected: it hands [refusal] back after one misbehaviour
    diagnostic, the virtual method [h] is not among what it reached, and
    nothing but the trace has changed. *)
Definition rejected {R : Type} (h : hook) (refusal : R) (o : outcome R)
    (p : Plugin) : Prop :=
  exists evs msg,
    o = Returned refusal (report msg (records evs p)) /\
    invocations h evs = O.

(** A call is delegated: the virtual method [h], whose override is [f], is
    reached once, on the subclass members as they were; its answer is handed
    back and the members are as it left them. *)
Definition delegated {R : Type} (h : hook) (f : A -> R * A) (o : outcome R)
    (p : Plugin) : Prop :=
  exists evs,
    o = Returned (fst (f (derived p)))
          (set_derived (snd (f (derived p)))
             (record (Invoked h) (records evs p))) /\
    invocations h evs = O.

(** The value a call handed back, if it returned. *)
Definition result {R : Type} (o : outcome R) : option R :=
  match o with
  | Returned r _ => Some r
  | _ => None
  end.

(** A computation that leaves the function table [plugin_] as it found
    it, however it ends. *)
Definition keeps_table {R : Type} (c : M R) : Prop :=
  forall t p, plugin_ (final (c t p)) = plugin_ p.

(** A guard has nothing to ask the host: the thread-check table is absent,
    or the one query the guard needs is a null pointer. *)
Definition lacksMainQuery (p : Plugin) : Prop :=
  hostThreadCheck_ p = None \/
  exists tc, hostThreadCheck_ p = Some tc /\ is_main_thread tc = None.

Definition lacksAudioQuery (p : Plugin) : Prop :=
  hostThreadCheck_ p = None \/
  exists tc, hostThreadCheck_ p = Some tc /\ is_audio_thread tc = None.

(** The host answers that the call is on the wrong thread. *)
Definition offMainThread (t : thread) (p : Plugin) : Prop :=
  exists tc f,
    hostThreadCheck_ p = Some tc /\ is_main_thread tc = Some f /\
    f t = false.

Definition offAudioThread (t : thread) (p : Plugin) : Prop :=
  exists tc f,
    hostThreadCheck_ p = Some tc /\ is_audio_thread tc = Some f /\
    f t = false.

(** The six slots that [Plugin::Plugin] leaves null. *)
Definition slots_null (pl : clap_plugin) : Prop :=
  plugin_extension pl = None /\ plugin_process pl = None /\
  plugin_activate pl = None /\ plugin_deactivate pl = None /\
  plugin_start_processing pl = None /\ plugin_stop_processing pl = None.

Definition slots_wired (pl : clap_plugin) : Prop :=
  plugin_extension pl = Some FnClapExtension /\
  plugin_process pl = Some FnClapProcess /\
  plugin_activate pl = Some FnClapActivate /\
  plugin_deactivate pl = Some FnClapDeactivate /\
  plugin_start_processing pl = Some FnClapStartProcessing /\
  plugin_stop_processing pl = Some FnClapStopProcessing.

(** The validity of a parameter id in the words of the data model: some
    index below the count reports it. *)
Definition ValidParamId (a : A) (param_id : clap_id) : Prop :=
  exists i info,
    0 <= i < to_uint32 (paramsCount a) /\
    paramsInfo i a = Some info /\ id info = param_id.

(** ** The sample-rate accessor *)

(** [Plugin::sampleRate]: a [const] member without a thread guard. *)
Definition sampleRate : M Z :=
  self <- this ;;
  assert (isActive_ self) ;;;
  assert (if isActive_ self then Z.ltb 0 (sampleRate_ self)
          else Z.eqb (sampleRate_ self) 0) ;;;
  ret (sampleRate_ self).

(** ** Vocabulary of the further properties *)

(** What [sampleRate] asserts of the object, together with the fact that
    only an active instance processes. *)
Definition lifecycle_ok (p : Plugin) : Prop :=
  (if isActive_ p then 0 < sampleRate_ p else sampleRate_ p = 0) /\
  (isProcessing_ p = true -> isActive_ p = true).

(** A computation that leaves the view [f] of the object as it found it,
    however it ends. *)
Definition keeps {X R : Type} (f : Plugin -> X) (c : M R) : Prop :=
  forall t p, f (final (c t p)) = f p.

Definition lifecycle (p : Plugin) : bool * bool * Z :=
  (isActive_ p, isProcessing_ p, sampleRate_ p).

(** The host interfaces the thread guards, the log and the track-info
    fetch look at. *)
Definition used_capabilities (p : Plugin)
    : option clap_host_log * option clap_host_thread_check
      * option clap_host_track_info :=
  (hostLog_ p, hostThreadCheck_ p, hostTrackInfo_ p).

(** No host interface has been looked up yet. *)
Definition undiscovered (p : Plugin) : Prop :=
  hostLog_ p = None /\ hostThreadCheck_ p = None /\
  hostTrackInfo_ p = None /\ forall k, hostStored_ p k = None.

(** What the host's lookup answers for an id, seen through a cast. *)
Definition found {T : Type} (cast : host_table -> option T)
    (lookup : string -> option host_table) (ext_id : string) : option T :=
  match lookup ext_id with
  | Some tbl => cast tbl
  | None => None
  end.

(** What a host offers for an id: nothing when it has no lookup. *)
Definition resolve {T : Type} (cast : host_table -> option T)
    (host : clap_host) (ext_id : string) : option T :=
  match host_extension host with
  | Some lookup => found cast lookup ext_id
  | None => None
  end.

(** The id under which [initInterfaces] asks for a stored interface. *)
Definition stored_ext_id (k : stored_iface) : string :=
  match k with
  | ThreadPool => CLAP_EXT_THREAD_POOL
  | AudioPorts => CLAP_EXT_AUDIO_PORTS
  | EventLoop => CLAP_EXT_EVENT_LOOP
  | EventFilter => CLAP_EXT_EVENT_FILTER
  | FileReference => CLAP_EXT_FILE_REFERENCE
  | Latency => CLAP_EXT_LATENCY
  | Gui => CLAP_EXT_GUI
  | Params => CLAP_EXT_PARAMS
  | State => CLAP_EXT_STATE
  | NoteName => CLAP_EXT_NOTE_NAME
  end.

(** The object after the thirteen lookups of [initInterfaces] on a host
    with a lookup function; without one nothing is stored. *)
Definition discovered (p : Plugin) : Plugin :=
  match host_extension (host_ p) with
  | None => p
  | Some lookup =>
      set_hostStored_ NoteName (found Some lookup CLAP_EXT_NOTE_NAME)
        (set_hostStored_ State (found Some lookup CLAP_EXT_STATE)
        (set_hostTrackInfo_
           (found as_track_info lookup CLAP_EXT_TRACK_INFO)
        (set_hostStored_ Params (found Some lookup CLAP_EXT_PARAMS)
        (set_hostStored_ Gui (found Some lookup CLAP_EXT_GUI)
        (set_hostStored_ Latency (found Some lookup CLAP_EXT_LATENCY)
        (set_hostStored_ FileReference
           (found Some lookup CLAP_EXT_FILE_REFERENCE)
        (set_hostStored_ EventFilter
           (found Some lookup CLAP_EXT_EVENT_FILTER)
        (set_hostStored_ EventLoop (found Some lookup CLAP_EXT_EVENT_LOOP)
        (set_hostStored_ AudioPorts
           (found Some lookup CLAP_EXT_AUDIO_PORTS)
        (set_hostStored_ ThreadPool
           (found Some lookup CLAP_EXT_THREAD_POOL)
        (set_hostThreadCheck_
           (found as_thread_check lookup CLAP_EXT_THREAD_CHECK)
        (set_hostLog_ (found as_log lookup CLAP_EXT_LOG) p))))))))))))
  end.

(** The object with the six slots assigned. *)
Definition wired (p : Plugin) : Plugin := set_plugin_ (wire (plugin_ p)) p.

(** The track-info fetch of a host interface succeeds. *)
Definition track_info_fetched (ti : option clap_host_track_info) : bool :=
  match ti with
  | Some {| get := Some (Some _) |} => true
  | _ => false
  end.

End Adapter.

Arguments Plugin {headers} A.
Arguments M {headers} A R.
Arguments Returned {headers A R} r p.
Arguments Terminated {headers A R} p.
Arguments AssertFailed {headers A R} p.

(** ** A concrete host and a concrete plugin *)

Definition demoHeaders : ClapHeaders :=
  {| clap_plugin_descriptor := string;
     clap_process := Z;
     clap_param_value := Z;
     CLAP_LOG_HOST_MISBEHAVING := 5;
     CLAP_PROCESS_ERROR := 0;
     CLAP_EXT_LOG := "clap/log";
     CLAP_EXT_THREAD_CHECK := "clap/thread-check";
     CLAP_EXT_THREAD_POOL := "clap/thread-pool";
     CLAP_EXT_AUDIO_PORTS := "clap/audio-ports";
     CLAP_EXT_EVENT_LOOP := "clap/event-loop";
     CLAP_EXT_EVENT_FILTER := "clap/event-filter";
     CLAP_EXT_FILE_REFERENCE := "clap/file-reference";
     CLAP_EXT_LATENCY := "clap/latency";
     CLAP_EXT_GUI := "clap/gui";
     CLAP_EXT_PARAMS := "clap/params";
     CLAP_EXT_TRACK_INFO := "clap/track-info";
     CLAP_EXT_STATE := "clap/state";
     CLAP_EXT_NOTE_NAME := "clap/note-name" |}.

(** The members of the demo plugin: the answers its overrides give and a
    count of the calls that changed it. *)
Record demo : Type := {
  init_ok : bool;
  activate_ok : bool;
  ports_ok : bool;
  params_ok : bool;
  param_ids : list clap_id;
  touched : nat
}.

Definition touch (d : demo) : demo :=
  {| init_ok := init_ok d; activate_ok := activate_ok d;
     ports_ok := ports_ok d; params_ok := params_ok d;
     param_ids := param_ids d; touched := S (touched d) |}.

Definition demoAuthor : @PluginAuthor demoHeaders demo :=
  @Build_PluginAuthor demoHeaders demo string
    (* init *) (fun d => (init_ok d, touch d))
    (* activate *) (fun _ d => (activate_ok d, touch d))
    (* deactivate *) touch
    (* startProcessing *) (fun d => (true, touch d))
    (* stopProcessing *) touch
    (* process *) (fun (block : Z) d => ((block + 1)%Z, touch d))
    (* extension *)
    (fun ext d =>
       (if String.eqb ext "demo/ext" then Some "demo table" else None, d))
    (* implementsAudioPorts *) ports_ok
    (* audioPortsSetConfig *) (fun _ d => (true, touch d))
    (* implementsParams *) params_ok
    (* paramsCount *) (fun d => Z.of_nat (length (param_ids d)))
    (* paramsInfo *)
    (fun i d =>
       if (i <? 0)%Z then None
       else option_map Build_clap_param_info
              (nth_error (param_ids d) (Z.to_nat i)))
    (* paramsEnumValue *) (fun pid k d => (Some (pid + k)%Z, touch d))
    (* paramsValue *) (fun pid d => (Some pid, touch d))
    (* paramsSetValue *) (fun _ _ _ d => (true, touch d))
    (* paramsValueToText *) (fun _ (v : Z) _ d => (Some (show v), touch d))
    (* paramsTextToValue *) (fun pid _ d => (Some pid, touch d)).

Definition demoPlugin : demo :=
  {| init_ok := true; activate_ok := true; ports_ok := false;
     params_ok := true; param_ids := [10; 20; 30]%Z; touched := 0 |}.

(** A host with no extension lookup at all. *)
Definition bareHost : clap_host := {| host_extension := None |}.

Definition onMain (t : thread) : bool :=
  match t with MainThread => true | _ => false end.

Definition onAudio (t : thread) : bool :=
  match t with AudioThread => true | _ => false end.

(** A host with a log and a complete thread check. *)
Definition checkingHost : clap_host :=
  {| host_extension := Some (fun ext =>
       if String.eqb ext "clap/log"
       then Some (HostLogTable {| log_fn := true |})
       else if String.eqb ext "clap/thread-check"
       then Some (HostThreadCheckTable
                    {| is_audio_thread := Some onAudio;
                       is_main_thread := Some onMain |})
       else None) |}.

(** A host whose thread check lacks the audio-thread query. *)
Definition halfCheckingHost : clap_host :=
  {| host_extension := Some (fun ext =>
       if String.eqb ext "clap/thread-check"
       then Some (HostThreadCheckTable
                    {| is_audio_thread := None;
                       is_main_thread := Some onMain |})
       else None) |}.

(** The demo plugin, constructed and initialised on the main thread. *)
Definition initialised (host : clap_host) (d : demo)
    : @Plugin demoHeaders demo :=
  final (clapInit (author := demoAuthor) false MainThread
           (Plugin_new (headers := demoHeaders) "demo" host d)).

(** The same, then activated at 44100 Hz. *)
Definition activated (host : clap_host) (d : demo)
    : @Plugin demoHeaders demo :=
  final (clapActivate (author := demoAuthor) false 44100 MainThread
           (initialised host d)).

(** The same, then started on the audio thread. *)
Definition started (host : clap_host) (d : demo)
    : @Plugin demoHeaders demo :=
  final (clapStartProcessing (author := demoAuthor) AudioThread
           (activated host d)).

(** A plugin whose [init] fails, and one whose [activate] fails. *)
Definition failingPlugin : demo :=
  {| init_ok := false; activate_ok := true; ports_ok := false;
     params_ok := true; param_ids := [10; 20; 30]%Z; touched := 0 |}.

Definition refusingPlugin : demo :=
  {| init_ok := true; activate_ok := false; ports_ok := false;
     params_ok := true; param_ids := [10; 20; 30]%Z; touched := 0 |}.

(** ** Comparing audio-port descriptors *)

(** Modelled from the spec: [clap_audio_port_info] is declared in
    ext/audio-ports.h, which is absent; the fields are the ones
    [compareAudioPortsInfo] reads.  The scalar fields are compared by value
    and kept as integers; [port_name] holds the [char] array, a list shorter
    than the array standing for one padded with NUL. *)
Record clap_audio_port_info : Type := {
  port_sample_size : Z;
  port_in_place : Z;
  port_is_cv : Z;
  port_is_main : Z;
  port_channel_count : Z;
  port_channel_map : Z;
  port_id : clap_id;
  port_name : list ascii
}.

(** [strncmp] of the C library: the difference of the first pair of bytes
    that differ among the first [n], 0 when none does before a NUL or the
    end of the [n] bytes. *)
Fixpoint strncmp (s1 s2 : list ascii) (n : nat) : Z :=
  match n with
  | O => 0
  | S n' =>
      let c1 := hd zero s1 in
      let c2 := hd zero s2 in
      if negb (Ascii.eqb c1 c2)
      then Z.of_nat (nat_of_ascii c1) - Z.of_nat (nat_of_ascii c2)
      else if Ascii.eqb c1 zero then 0
      else strncmp (tl s1) (tl s2) n'
  end.

(** The C string an array of [n] bytes holds: what comes before the first
    NUL. *)
Fixpoint c_str (n : nat) (s : list ascii) : list ascii :=
  match n with
  | O => []
  | S n' =>
      match s with
      | [] => []
      | c :: r => if Ascii.eqb c zero then [] else c :: c_str n' r
      end
  end.

(** The fields whose change asks for a full rescan. *)
Definition same_structure (a b : clap_audio_port_info) : Prop :=
  port_sample_size a = port_sample_size b /\
  port_in_place a = port_in_place b /\
  port_is_cv a = port_is_cv b /\
  port_is_main a = port_is_main b /\
  port_channel_count a = port_channel_count b /\
  port_channel_map a = port_channel_map b /\
  port_id a = port_id b.

Section AudioPorts.

(** Constants of ext/audio-ports.h and clap.h, which are absent: the two
    rescan flags and the size of a name array. *)
Variable CLAP_AUDIO_PORTS_RESCAN_ALL : Z.
Variable CLAP_AUDIO_PORTS_RESCAN_NAMES : Z.
Variable CLAP_NAME_SIZE : nat.

(** [Plugin::compareAudioPortsInfo]. *)
Definition compareAudioPortsInfo (a b : clap_audio_port_info) : Z :=
  if negb (Z.eqb (port_sample_size a) (port_sample_size b))
     || negb (Z.eqb (port_in_place a) (port_in_place b))
     || negb (Z.eqb (port_is_cv a) (port_is_cv b))
     || negb (Z.eqb (port_is_main a) (port_is_main b))
     || negb (Z.eqb (port_channel_count a) (port_channel_count b))
     || negb (Z.eqb (port_channel_map a) (port_channel_map b))
     || negb (Z.eqb (port_id a) (port_id b))
  then CLAP_AUDIO_PORTS_RESCAN_ALL
  else if negb (Z.eqb (strncmp (port_name a) (port_name b) CLAP_NAME_SIZE) 0)
  then CLAP_AUDIO_PORTS_RESCAN_NAMES
  else 0.

End AudioPorts.

(** Two descriptors of the demo plugin that differ after the NUL of the
    name only, and one with another name. *)
Definition demoPortA : clap_audio_port_info :=
  {| port_sample_size := 32; port_in_place := 1; port_is_cv := 0;
     port_is_main := 1; port_channel_count := 2; port_channel_map := 2;
     port_id := 0;
     port_name := ["o"; "u"; "t"; zero; "x"]%char |}.

Definition demoPortB : clap_audio_port_info :=
  {| port_sample_size := 32; port_in_place := 1; port_is_cv := 0;
     port_is_main := 1; port_channel_count := 2; port_channel_map := 2;
     port_id := 0;
     port_name := ["o"; "u"; "t"]%char |}.

Definition demoPortC : clap_audio_port_info :=
  {| port_sample_size := 32; port_in_place := 1; port_is_cv := 0;
     port_is_main := 1; port_channel_count := 2; port_channel_map := 2;
     port_id := 0;
     port_name := ["o"; "u"; "t"; "2"]%char |}.

(** ** Properties *)

Section AdapterProperties.

Context {headers : ClapHeaders} {A : Type} {author : PluginAuthor A}.

Variable NDEBUG : bool.

Local Notation "c ;;; k" := (bind c (fun _ => k))
  (at level 61, right associativity).

(** *** One step of each building block *)

Lemma hostMisbehaving_run (msg : string) (t : thread) (p : Plugin A) :
  hostMisbehaving msg t p = Returned tt (report msg p).
Proof.
  unfold hostMisbehaving, log, bind, this, modify, report, misbehaviour.
  destruct (canUseHostLog p); reflexivity.
Qed.

Lemma invocations_report (h : hook) (msg : string) (p : Plugin A) :
  invocations h (trace (report msg p)) = invocations h (trace p).
Proof.
  unfold report, misbehaviour, invocations. simpl.
  destruct (canUseHostLog p); reflexivity.
Qed.

Lemma hook_eqb_refl (h : hook) : hook_eqb h h = true.
Proof. destruct h; reflexivity. Qed.

Lemma invocations_invoke_same (h : hook) (a : A) (p : Plugin A) :
  invocations h (trace (set_derived a (record (Invoked h) p)))
  = S (invocations h (trace p)).
Proof.
  unfold invocations. simpl. rewrite hook_eqb_refl. reflexivity.
Qed.

Lemma invocations_invoke_other (h h' : hook) (a : A) (p : Plugin A) :
  hook_eqb h h' = false ->
  invocations h (trace (set_derived a (record (Invoked h') p)))
  = invocations h (trace p).
Proof.
  intros H. unfold invocations. simpl. rewrite H. reflexivity.
Qed.

Lemma ensureMainThread_pass (method : string) (t : thread) (p : Plugin A) :
  mainThreadPasses t p = true -> ensureMainThread method t p = Returned tt p.
Proof.
  intros H. unfold ensureMainThread, bind, this, current_thread.
  rewrite H. reflexivity.
Qed.

Lemma ensureMainThread_stop (method : string) (t : thread) (p : Plugin A) :
  mainThreadPasses t p = false ->
  ensureMainThread method t p =
  Terminated
    (report ("Host called the method " ++ method
             ++ "() on wrong thread! It must be called on main thread!") p).
Proof.
  intros H. unfold ensureMainThread, bind, this, current_thread.
  rewrite H, hostMisbehaving_run. reflexivity.
Qed.

Lemma ensureAudioThread_pass (method : string) (t : thread) (p : Plugin A) :
  audioThreadPasses t p = true ->
  ensureAudioThread method t p = Returned tt p.
Proof.
  intros H. unfold ensureAudioThread, bind, this, current_thread.
  rewrite H. reflexivity.
Qed.

Lemma ensureAudioThread_stop (method : string) (t : thread) (p : Plugin A) :
  audioThreadPasses t p = false ->
  ensureAudioThread method t p =
  Terminated
    (report ("Host called the method " ++ method
             ++ "() on wrong thread! It must be called on audio thread!") p).
Proof.
  intros H. unfold ensureAudioThread, bind, this, current_thread.
  rewrite H, hostMisbehaving_run. reflexivity.
Qed.

Lemma checkMainThread_pass (t : thread) (p : Plugin A) :
  mainThreadPasses t p = true -> checkMainThread t p = Returned tt p.
Proof.
  intros H. unfold checkMainThread, bind, this, current_thread.
  rewrite H. reflexivity.
Qed.

Lemma checkMainThread_stop (t : thread) (p : Plugin A) :
  mainThreadPasses t p = false -> checkMainThread t p = Terminated p.
Proof.
  intros H. unfold checkMainThread, bind, this, current_thread.
  rewrite H. reflexivity.
Qed.

(** Unfolds the sequencing of an entry point whose guard passes. *)
Ltac enter Hguard :=
  unfold bind, this, modify, ret, invoke_void, invoke_const, invoke;
  repeat first [ rewrite (ensureMainThread_pass _ _ _ Hguard)
               | rewrite (ensureAudioThread_pass _ _ _ Hguard) ];
  cbn beta iota.

(** *** The processing gate *)

(** C5.  On the thread the guard accepts: unless the instance is both active
    and processing, [process] answers [CLAP_PROCESS_ERROR] after a
    misbehaviour diagnostic and never reaches the author's [process]; when
    it is active and processing, the author's [process] runs and its status
    is the answer. *)
Theorem clapProcess_gate (block : clap_process) (t : thread) (p : Plugin A)
    (Hthread : audioThreadPasses t p = true) :
  (isActive_ p && isProcessing_ p = false ->
   rejected H_process CLAP_PROCESS_ERROR (clapProcess block t p) p) /\
  (isActive_ p && isProcessing_ p = true ->
   delegated H_process (process block) (clapProcess block t p) p).
Proof.
  split; intros Hst; unfold clapProcess; enter Hthread.
  - exists [].
    destruct (isActive_ p) eqn:Ha; cbn [negb].
    + simpl in Hst. rewrite Hst. cbn [negb].
      rewrite hostMisbehaving_run. eexists. split; reflexivity.
    + rewrite hostMisbehaving_run. eexists. split; reflexivity.
  - apply andb_true_iff in Hst. destruct Hst as [Ha Hp].
    rewrite Ha, Hp. cbn [negb]. exists [].
    destruct (process block (derived p)); split; reflexivity.
Qed.

(** *** Activation and deactivation *)

(** C4.  On the main thread, for an inactive instance: a sample rate that is
    not positive is refused with [false] and a diagnostic, the instance
    staying inactive at rate 0; a positive one whose [activate] override
    fails gives [false] and leaves the instance inactive at rate 0; a
    positive one whose override succeeds gives [true], the instance is
    active and the rate recorded. *)
Theorem clapActivate_from_inactive (sample_rate : Z) (t : thread)
    (p : Plugin A)
    (Hthread : mainThreadPasses t p = true) (Hinactive : Inactive p) :
  (sample_rate <= 0 ->
   exists msg,
     clapActivate NDEBUG sample_rate t p = Returned false (report msg p) /\
     Inactive (report msg p)) /\
  (0 < sample_rate -> fst (activate sample_rate (derived p)) = false ->
   exists p',
     clapActivate NDEBUG sample_rate t p = Returned false p' /\
     Inactive p') /\
  (0 < sample_rate -> fst (activate sample_rate (derived p)) = true ->
   exists p',
     clapActivate NDEBUG sample_rate t p = Returned true p' /\
     Active p' /\ sampleRate_ p' = sample_rate).
Proof.
  destruct Hinactive as [Ha Hs].
  repeat split; intros Hsr; unfold clapActivate; enter Hthread;
    rewrite Ha; cbn beta iota.
  - apply Z.leb_le in Hsr. rewrite Hsr, hostMisbehaving_run.
    eexists; repeat split; assumption.
  - intros Hhook. apply Z.leb_gt in Hsr. rewrite Hsr.
    unfold assert. rewrite Ha, Hs. cbn [negb Z.eqb].
    rewrite !orb_true_r. cbn beta iota.
    destruct (activate sample_rate (derived p)) as [ok a].
    simpl in Hhook. subst ok. cbn [negb]. cbn. rewrite Ha, Hs.
    cbn [negb Z.eqb]. rewrite !orb_true_r.
    eexists; repeat split; assumption.
  - intros Hhook. apply Z.leb_gt in Hsr. rewrite Hsr.
    unfold assert. rewrite Ha, Hs. cbn [negb Z.eqb].
    rewrite !orb_true_r. cbn beta iota.
    destruct (activate sample_rate (derived p)) as [ok a].
    simpl in Hhook. subst ok. cbn [negb].
    eexists; repeat split; reflexivity.
Qed.

(** C2, as the code has it.  On the main thread: deactivating an inactive
    instance reports a diagnostic and changes nothing else; deactivating an
    active one runs the author's [deactivate] and returns with the instance
    still active and its sample rate still recorded. *)
Theorem clapDeactivate_leaves_active (t : thread) (p : Plugin A)
    (Hthread : mainThreadPasses t p = true) :
  (isActive_ p = false ->
   exists msg, clapDeactivate t p = Returned tt (report msg p)) /\
  (isActive_ p = true ->
   exists p',
     clapDeactivate t p = Returned tt p' /\
     invocations H_deactivate (trace p')
     = S (invocations H_deactivate (trace p)) /\
     isActive_ p' = true /\ sampleRate_ p' = sampleRate_ p).
Proof.
  split; intros Ha; unfold clapDeactivate; enter Hthread;
    rewrite Ha; cbn [negb].
  - rewrite hostMisbehaving_run. eexists; reflexivity.
  - eexists; repeat split; assumption.
Qed.

(** C1, as the code has it.  On the main thread, for an instance active at
    a rate other than the positive [sample_rate]: the simulated deactivation
    leaves the instance active, so a build with assertions stops at
    [assert(!self.isActive_)], still active at the old rate; a build without
    them hands the still-active instance to the author's [activate]. *)
Theorem clapActivate_twice_never_inactive (sample_rate : Z) (t : thread)
    (p : Plugin A)
    (Hthread : mainThreadPasses t p = true) (Hactive : Active p)
    (Hother : sample_rate <> sampleRate_ p) (Hpos : 0 < sample_rate) :
  (exists p',
     clapActivate false sample_rate t p = AssertFailed p' /\
     isActive_ p' = true /\ sampleRate_ p' = sampleRate_ p /\
     invocations H_deactivate (trace p')
     = S (invocations H_deactivate (trace p)) /\
     invocations H_activate (trace p') = invocations H_activate (trace p)) /\
  (exists m1 m2,
     let p1 := set_derived (deactivate (derived p))
                 (record (Invoked H_deactivate) (report m2 (report m1 p))) in
     isActive_ p1 = true /\ sampleRate_ p1 = sampleRate_ p /\
     clapActivate true sample_rate t p
     = if fst (activate sample_rate (derived p1))
       then Returned true
              (set_sampleRate_ sample_rate
                 (set_isActive_ true
                    (set_derived (snd (activate sample_rate (derived p1)))
                       (record (Invoked H_activate) p1))))
       else Returned false
              (set_derived (snd (activate sample_rate (derived p1)))
                 (record (Invoked H_activate) p1))).
Proof.
  unfold Active in Hactive.
  apply Z.eqb_neq in Hother. apply Z.leb_gt in Hpos.
  split.
  - unfold clapActivate; enter Hthread.
    rewrite Hactive, Hother; cbn [negb].
    rewrite !hostMisbehaving_run. cbn beta iota.
    unfold clapDeactivate; enter Hthread.
    rewrite (ensureMainThread_pass _ t (report _ (report _ p)) Hthread).
    cbn. rewrite Hactive, Hpos. cbn.
    unfold assert. cbn. rewrite Hactive. cbn.
    eexists; repeat split.
    + assumption.
    + rewrite invocations_invoke_same, !invocations_report. reflexivity.
    + rewrite invocations_invoke_other, !invocations_report; reflexivity.
  - do 2 eexists. cbn zeta. split; [exact Hactive|]. split; [reflexivity|].
    unfold clapActivate; enter Hthread.
    rewrite Hactive, Hother; cbn [negb].
    rewrite !hostMisbehaving_run. cbn beta iota.
    unfold clapDeactivate; enter Hthread.
    rewrite (ensureMainThread_pass _ t (report _ (report _ p)) Hthread).
    cbn. rewrite Hactive, Hpos. cbn.
    destruct (activate sample_rate (deactivate (derived p))) as [ok a].
    destruct ok; reflexivity.
Qed.

(** C6, as the code has it.  On the main thread, for an active instance:
    [audioPortsSetConfig] reports the misbehaviour and then runs the
    author's override all the same, handing back its answer. *)
Theorem clapAudioPortsSetConfig_while_active (config_id : clap_id)
    (t : thread) (p : Plugin A)
    (Hthread : mainThreadPasses t p = true) (Hactive : Active p) :
  exists msg p',
    clapAudioPortsSetConfig config_id t p
    = Returned (fst (audioPortsSetConfig config_id (derived p))) p' /\
    p' = set_derived (snd (audioPortsSetConfig config_id (derived p)))
           (record (Invoked H_audioPortsSetConfig) (report msg p)) /\
    invocations H_audioPortsSetConfig (trace p')
    = S (invocations H_audioPortsSetConfig (trace p)).
Proof.
  unfold Active in Hactive.
  unfold clapAudioPortsSetConfig; enter Hthread.
  unfold isActive. rewrite Hactive, hostMisbehaving_run. cbn beta iota.
  change (derived (report ?m p)) with (derived p).
  destruct (audioPortsSetConfig config_id (derived p)) as [ok a].
  do 2 eexists. split; [reflexivity|]. split; [reflexivity|].
  rewrite invocations_invoke_same, invocations_report. reflexivity.
Qed.

(** *** The thread guards *)

(** C8, amended.  Each guard follows its own query.  Where the thread-check
    table is absent or lacks [is_main_thread], [ensureMainThread] and
    [checkMainThread] return with nothing changed; where it is absent or
    lacks [is_audio_thread], so does [ensureAudioThread].  Where the query a
    guard needs is there and answers no, [ensureMainThread] and
    [ensureAudioThread] report one misbehaviour diagnostic and terminate,
    and [checkMainThread] terminates with nothing reported. *)
Theorem thread_guards_follow_own_query (method : string) (t : thread)
    (p : Plugin A) :
  (lacksMainQuery p ->
   ensureMainThread method t p = Returned tt p /\
   checkMainThread t p = Returned tt p) /\
  (lacksAudioQuery p -> ensureAudioThread method t p = Returned tt p) /\
  (offMainThread t p ->
   (exists msg, ensureMainThread method t p = Terminated (report msg p)) /\
   checkMainThread t p = Terminated p) /\
  (offAudioThread t p ->
   exists msg, ensureAudioThread method t p = Terminated (report msg p)).
Proof.
  split; [|split; [|split]].
  - intros H.
    assert (Hpass : mainThreadPasses t p = true).
    { unfold mainThreadPasses.
      destruct H as [-> | (tc & -> & ->)]; reflexivity. }
    split; [apply ensureMainThread_pass | apply checkMainThread_pass];
      exact Hpass.
  - intros H. apply ensureAudioThread_pass. unfold audioThreadPasses.
    destruct H as [-> | (tc & -> & ->)]; reflexivity.
  - intros (tc & f & Htc & Hf & Hno).
    assert (Hstop : mainThreadPasses t p = false).
    { unfold mainThreadPasses. rewrite Htc, Hf. exact Hno. }
    split.
    + eexists. apply ensureMainThread_stop. exact Hstop.
    + apply checkMainThread_stop. exact Hstop.
  - intros (tc & f & Htc & Hf & Hno). eexists.
    apply ensureAudioThread_stop. unfold audioThreadPasses.
    rewrite Htc, Hf. exact Hno.
Qed.

(** *** The function table *)

Lemma keeps_bind {R S : Type} (c : M A R) (k : R -> M A S) :
  keeps_table c -> (forall r, keeps_table (k r)) -> keeps_table (bind c k).
Proof.
  intros Hc Hk t p. unfold bind. specialize (Hc t p).
  destruct (c t p) as [r p' | p' | p']; simpl in Hc |- *;
    [rewrite Hk | | ]; exact Hc.
Qed.

Lemma keeps_ret {R : Type} (r : R) : keeps_table (A := A) (ret r).
Proof. intros t p. reflexivity. Qed.

Lemma keeps_this : keeps_table (A := A) this.
Proof. intros t p. reflexivity. Qed.

Lemma keeps_current_thread : keeps_table (A := A) current_thread.
Proof. intros t p. reflexivity. Qed.

Lemma keeps_terminate {R : Type} : keeps_table (A := A) (R := R) terminate.
Proof. intros t p. reflexivity. Qed.

Lemma keeps_assert (b : bool) : keeps_table (A := A) (assert NDEBUG b).
Proof. intros t p. unfold assert. destruct (NDEBUG || b); reflexivity. Qed.

Lemma keeps_modify (f : Plugin A -> Plugin A) :
  (forall p, plugin_ (f p) = plugin_ p) -> keeps_table (modify f).
Proof. intros H t p. apply H. Qed.

Lemma keeps_invoke {R : Type} (h : hook) (f : A -> R * A) :
  keeps_table (invoke h f).
Proof.
  intros t p. unfold invoke. destruct (f (derived p)); reflexivity.
Qed.

Lemma keeps_hostMisbehaving (msg : string) :
  keeps_table (A := A) (hostMisbehaving msg).
Proof. intros t p. rewrite hostMisbehaving_run. reflexivity. Qed.

Create HintDb keeps.

#[local] Hint Resolve keeps_ret keeps_this keeps_current_thread
  keeps_terminate keeps_assert keeps_invoke keeps_hostMisbehaving : keeps.

(** Walks through the sequencing and the branches of a computation. *)
Ltac keeps :=
  repeat first
    [ solve [ auto with keeps ]
    | apply keeps_modify; intros; reflexivity
    | apply keeps_bind; [ | intros ]
    | match goal with
      | |- keeps_table (if ?b then _ else _) => destruct b
      | |- keeps_table (match ?x with _ => _ end) => destruct x
      end ].

Lemma keeps_checkMainThread : keeps_table (A := A) checkMainThread.
Proof. unfold checkMainThread. keeps. Qed.

Lemma keeps_ensureMainThread (method : string) :
  keeps_table (A := A) (ensureMainThread method).
Proof. unfold ensureMainThread. keeps. Qed.

Lemma keeps_ensureAudioThread (method : string) :
  keeps_table (A := A) (ensureAudioThread method).
Proof. unfold ensureAudioThread. keeps. Qed.

Lemma keeps_initInterface {T : Type} (ptr : Plugin A -> option T)
    (store : option T -> Plugin A -> Plugin A)
    (cast : host_table -> option T) (ext_id : string) :
  (forall x p, plugin_ (store x p) = plugin_ p) ->
  keeps_table (initInterface NDEBUG ptr store cast ext_id).
Proof.
  intros Hstore. unfold initInterface.
  apply keeps_bind; [ apply keeps_this | intros self ].
  apply keeps_bind; [ apply keeps_assert | intros _ ].
  destruct (host_extension (host_ self)).
  - intros t p. apply Hstore.
  - apply keeps_ret.
Qed.

#[local] Hint Resolve keeps_checkMainThread keeps_ensureMainThread
  keeps_ensureAudioThread : keeps.

Lemma keeps_initInterfaces : keeps_table (A := A) (initInterfaces NDEBUG).
Proof.
  unfold initInterfaces, initStored.
  repeat (apply keeps_bind; [ | intros _ ]);
    apply keeps_initInterface; reflexivity.
Qed.

Lemma keeps_initTrackInfo : keeps_table (A := A) (initTrackInfo NDEBUG).
Proof.
  unfold initTrackInfo. keeps.
Qed.

Lemma keeps_clapDeactivate : keeps_table (A := A) clapDeactivate.
Proof. unfold clapDeactivate, invoke_void. keeps. Qed.

#[local] Hint Resolve keeps_clapDeactivate : keeps.

Lemma keeps_clapActivate (sample_rate : Z) :
  keeps_table (A := A) (clapActivate NDEBUG sample_rate).
Proof. unfold clapActivate. keeps. Qed.

Lemma keeps_clapStartProcessing : keeps_table (A := A) clapStartProcessing.
Proof. unfold clapStartProcessing. keeps. Qed.

Lemma keeps_clapStopProcessing : keeps_table (A := A) clapStopProcessing.
Proof. unfold clapStopProcessing, invoke_void. keeps. Qed.

Lemma keeps_clapProcess (block : clap_process) :
  keeps_table (A := A) (clapProcess block).
Proof. unfold clapProcess. keeps. Qed.

Lemma keeps_clapExtension (ext : string) :
  keeps_table (A := A) (clapExtension ext).
Proof. unfold clapExtension, matches_and, invoke_const. keeps. Qed.

(** C3, amended.  [Plugin::Plugin] leaves the six slots null, and none of
    the entry points they would hold touches the table; every call of
    [clapInit] assigns all six, on whatever thread it runs, however it ends
    and whatever the author's [init] answers. *)
Theorem slots_wired_by_every_init (desc : clap_plugin_descriptor)
    (host : clap_host) (a : A) (t : thread) (p : Plugin A) :
  slots_null (plugin_ (Plugin_new desc host a)) /\
  (keeps_table (A := A) clapDeactivate /\
   (forall sample_rate,
      keeps_table (A := A) (clapActivate NDEBUG sample_rate)) /\
   keeps_table (A := A) clapStartProcessing /\
   keeps_table (A := A) clapStopProcessing /\
   (forall block, keeps_table (A := A) (clapProcess block)) /\
   (forall ext, keeps_table (A := A) (clapExtension ext))) /\
  slots_wired (plugin_ (final (clapInit NDEBUG t p))).
Proof.
  split; [ repeat split | split ].
  - repeat split;
      auto using keeps_clapDeactivate, keeps_clapActivate,
        keeps_clapStartProcessing, keeps_clapStopProcessing,
        keeps_clapProcess, keeps_clapExtension.
  - unfold clapInit.
    assert (Hrest : keeps_table (A := A)
              (initInterfaces NDEBUG ;;;
               ensureMainThread "clap_plugin.init" ;;;
               initTrackInfo NDEBUG ;;; invoke H_init init)).
    { apply keeps_bind; [ apply keeps_initInterfaces | intros _ ].
      apply keeps_bind; [ apply keeps_ensureMainThread | intros _ ].
      apply keeps_bind; [ apply keeps_initTrackInfo | intros _ ].
      apply keeps_invoke. }
    unfold bind at 1. unfold modify at 1.
    rewrite Hrest. repeat split.
Qed.

(** *** The extension query *)

Lemma NoDup4 {T : Type} (a b c d : T) :
  NoDup [a; b; c; d] ->
  a <> b /\ a <> c /\ a <> d /\ b <> c /\ b <> d /\ c <> d.
Proof.
  intros H.
  inversion H as [ | ? ? Ha H1 ]; subst.
  inversion H1 as [ | ? ? Hb H2 ]; subst.
  inversion H2 as [ | ? ? Hc H3 ]; subst.
  cbn in Ha, Hb, Hc. intuition congruence.
Qed.

(** C9.  On the main thread, the four built-in ids being pairwise
    different: the render id gives the render table and the track-info id
    the track-info table; the audio-ports id gives the audio-ports table
    exactly when [implementsAudioPorts()] holds, and the params id the
    params table exactly when [implementsParams()] holds; every other query
    runs the author's [extension(id)] and hands back what it answers,
    absent included. *)
Theorem clapExtension_dispatch (ext : string) (t : thread) (p : Plugin A)
    (Hthread : mainThreadPasses t p = true)
    (Hids : NoDup [CLAP_EXT_RENDER; CLAP_EXT_TRACK_INFO;
                   CLAP_EXT_AUDIO_PORTS; CLAP_EXT_PARAMS]) :
  (ext = CLAP_EXT_RENDER ->
   clapExtension ext t p = Returned (Some pluginRender_) p) /\
  (ext = CLAP_EXT_TRACK_INFO ->
   clapExtension ext t p = Returned (Some pluginTrackInfo_) p) /\
  (ext = CLAP_EXT_AUDIO_PORTS ->
   (result (clapExtension ext t p) = Some (Some pluginAudioPorts_)
    <-> implementsAudioPorts (derived p) = true)) /\
  (ext = CLAP_EXT_PARAMS ->
   (result (clapExtension ext t p) = Some (Some pluginParams_)
    <-> implementsParams (derived p) = true)) /\
  (ext <> CLAP_EXT_RENDER -> ext <> CLAP_EXT_TRACK_INFO ->
   ~ (ext = CLAP_EXT_AUDIO_PORTS /\ implementsAudioPorts (derived p) = true) ->
   ~ (ext = CLAP_EXT_PARAMS /\ implementsParams (derived p) = true) ->
   delegated H_extension
     (fun a => (option_map authorTable (fst (extension ext a)),
                snd (extension ext a)))
     (clapExtension ext t p) p).
Proof.
  apply NoDup4 in Hids.
  destruct Hids as (Hrt & Hra & Hrp & Hta & Htp & Hap).
  unfold clapExtension, matches_and; enter Hthread.
  destruct (String.eqb_spec ext CLAP_EXT_RENDER) as [Er | Er];
  destruct (String.eqb_spec ext CLAP_EXT_TRACK_INFO) as [Et | Et];
  destruct (String.eqb_spec ext CLAP_EXT_AUDIO_PORTS) as [Ea | Ea];
  destruct (String.eqb_spec ext CLAP_EXT_PARAMS) as [Ep | Ep];
    try (exfalso; congruence);
    cbn beta iota;
    (split; [ intros E | split; [ intros E | split; [ intros E |
       split; [ intros E | intros N1 N2 N3 N4 ] ] ] ]);
    try (exfalso; congruence); try reflexivity.
  - (* the audio-ports id *)
    destruct (implementsAudioPorts (derived p)) eqn:Hp; cbn.
    + split; reflexivity.
    + destruct (extension ext (derived p)) as [[x | ] a]; cbn;
        split; intros; discriminate.
  - destruct (implementsAudioPorts (derived p)) eqn:Hp;
      [ exfalso; apply N3; split; [ assumption | reflexivity ] | ].
    cbn. exists [Invoked H_implementsAudioPorts].
    destruct (extension ext (derived p)) as [r a]; split; reflexivity.
  - (* the params id *)
    destruct (implementsParams (derived p)) eqn:Hp; cbn.
    + split; reflexivity.
    + destruct (extension ext (derived p)) as [[x | ] a]; cbn;
        split; intros; discriminate.
  - destruct (implementsParams (derived p)) eqn:Hp;
      [ exfalso; apply N4; split; [ assumption | reflexivity ] | ].
    cbn. exists [Invoked H_implementsParams].
    destruct (extension ext (derived p)) as [r a]; split; reflexivity.
  - (* any other id *)
    exists []. cbn.
    destruct (extension ext (derived p)) as [r a]; split; reflexivity.
Qed.

(** *** Parameter queries *)

Lemma to_uint32_small (z : Z) : 0 <= z < 2 ^ 32 -> to_uint32 z = z.
Proof. intros H. unfold to_uint32. apply Z.mod_small. exact H. Qed.

Lemma to_uint32_negative (z : Z) :
  - 2 ^ 32 <= z < 0 -> to_uint32 z = z + 2 ^ 32.
Proof.
  intros H. unfold to_uint32.
  rewrite <- (Z_mod_plus_full z 1 (2 ^ 32)).
  rewrite Z.mul_1_l. apply Z.mod_small. lia.
Qed.

Lemma to_uint32_range (z : Z) : 0 <= to_uint32 z < 2 ^ 32.
Proof. unfold to_uint32. apply Z.mod_pos_bound. lia. Qed.

(** C10.  On the main thread, for an [int32_t] index below zero and an
    author whose [paramsCount()] is below 2^31: [clapParamsIinfo] answers
    [false] after a misbehaviour diagnostic and never reaches the author's
    [paramsInfo]. *)
Theorem clapParamsIinfo_negative_index (param_index : Z) (t : thread)
    (p : Plugin A)
    (Hthread : mainThreadPasses t p = true)
    (Hint32 : - 2 ^ 31 <= param_index)
    (Hnegative : param_index < 0)
    (Hcount : 0 <= paramsCount (derived p) < 2 ^ 31) :
  rejected H_paramsInfo None (clapParamsIinfo param_index t p) p.
Proof.
  unfold clapParamsIinfo, clapParamsCount; enter Hthread.
  rewrite (to_uint32_small (paramsCount (derived p))) by lia.
  rewrite (to_uint32_negative param_index) by lia.
  replace (paramsCount (derived p) <=? param_index + 2 ^ 32)%Z with true
    by (symmetry; apply Z.leb_le; lia).
  rewrite hostMisbehaving_run.
  exists [Invoked H_paramsCount]. eexists. split; reflexivity.
Qed.

(** The fields that a run of events leaves alone. *)
Lemma derived_records (evs : list event) (p : Plugin A) :
  derived (records evs p) = derived p.
Proof. induction evs; [ reflexivity | exact IHevs ]. Qed.

Lemma isActive_records (evs : list event) (p : Plugin A) :
  isActive_ (records evs p) = isActive_ p.
Proof. induction evs; [ reflexivity | exact IHevs ]. Qed.

Lemma records_app (evs evs' : list event) (p : Plugin A) :
  records (evs ++ evs')%list p = records evs (records evs' p).
Proof. unfold records. apply fold_right_app. Qed.

Lemma invocations_app (h : hook) (evs evs' : list event) :
  invocations h (evs ++ evs')%list
  = (invocations h evs + invocations h evs')%nat.
Proof.
  unfold invocations. rewrite filter_app. apply length_app.
Qed.

Lemma invocations_repeat_other (h h' : hook) (k : nat) :
  hook_eqb h h' = false -> invocations h (repeat (Invoked h') k) = O.
Proof.
  intros H. induction k as [ | k IH ]; [ reflexivity | ].
  unfold invocations in *. simpl. rewrite H. exact IH.
Qed.

(** The events of one validity scan: the count query, then [k] entries
    looked at. *)
Lemma scan_quiet (h : hook) (k : nat) :
  hook_eqb h H_paramsInfo = false -> hook_eqb h H_paramsCount = false ->
  invocations h (repeat (Invoked H_paramsInfo) k ++ [Invoked H_paramsCount])
  = O.
Proof.
  intros Hi Hc. rewrite invocations_app, invocations_repeat_other by exact Hi.
  unfold invocations. simpl. rewrite Hc. reflexivity.
Qed.

(** The loop of [isValidParamId] returns, having only looked at entries,
    and finds the id exactly when one of the indices it walks reports it. *)
Lemma isValidParamId_from_run (n : nat) (param_id : clap_id) (t : thread) :
  forall (i : Z) (p : Plugin A),
  exists k b,
    isValidParamId_from n i param_id t p
    = Returned b (records (repeat (Invoked H_paramsInfo) k) p) /\
    (b = true <->
     exists j info,
       i <= j < i + Z.of_nat n /\
       paramsInfo j (derived p) = Some info /\ id info = param_id).
Proof.
  induction n as [ | n IH ]; intros i p.
  - exists O, false. split; [ reflexivity | ].
    split; [ discriminate | ].
    intros (j & info & Hj & _). lia.
  - cbn [isValidParamId_from]. unfold bind, invoke_const, ret.
    pose (p1 := record (Invoked H_paramsInfo) p).
    destruct (IH (i + 1) p1) as (k & b & Hrun & Hiff).
    assert (Hshift :
      records (repeat (Invoked H_paramsInfo) k) p1
      = records (repeat (Invoked H_paramsInfo) (S k)) p).
    { rewrite (repeat_cons k (Invoked H_paramsInfo) : repeat _ (S k) = _).
      rewrite records_app. reflexivity. }
    assert (Hrest :
      b = true <->
      exists j info,
        i + 1 <= j < i + Z.of_nat (S n) /\
        paramsInfo j (derived p) = Some info /\ id info = param_id).
    { rewrite Hiff. split; intros (j & info & Hj & Hinfo & Hid);
        exists j, info; repeat split; try assumption; lia. }
    destruct (paramsInfo i (derived p)) as [info | ] eqn:Hinfo.
    + destruct (Z.eqb_spec (id info) param_id) as [Hid | Hid].
      * exists 1%nat, true. split; [ reflexivity | ].
        split; [ intros _ | reflexivity ].
        exists i, info. repeat split; try assumption; lia.
      * exists (S k), b. fold p1. rewrite Hrun, Hshift.
        split; [ reflexivity | ].
        rewrite Hrest. split; intros (j & info' & Hj & Hinfo' & Hid').
        -- exists j, info'. repeat split; try assumption; lia.
        -- exists j, info'. repeat split; try assumption; try lia.
           destruct (Z.eq_dec j i) as [-> | Hne]; [ | lia ].
           rewrite Hinfo in Hinfo'. congruence.
    + exists (S k), b. fold p1. rewrite Hrun, Hshift.
      split; [ reflexivity | ].
      rewrite Hrest. split; intros (j & info' & Hj & Hinfo' & Hid').
      * exists j, info'. repeat split; try assumption; lia.
      * exists j, info'. repeat split; try assumption; try lia.
        destruct (Z.eq_dec j i) as [-> | Hne]; [ | lia ].
        rewrite Hinfo in Hinfo'. discriminate.
Qed.

(** [isValidParamId] decides the validity of the data model. *)
Lemma isValidParamId_run (param_id : clap_id) (t : thread) (p : Plugin A) :
  mainThreadPasses t p = true ->
  exists k b,
    isValidParamId param_id t p
    = Returned b
        (records
           (repeat (Invoked H_paramsInfo) k ++ [Invoked H_paramsCount]) p) /\
    (b = true <-> ValidParamId (derived p) param_id).
Proof.
  intros Hthread. unfold isValidParamId, bind, invoke_const.
  rewrite (checkMainThread_pass _ _ Hthread).
  set (count := to_uint32 (paramsCount (derived p))).
  destruct (isValidParamId_from_run (Z.to_nat count) param_id t 0
              (record (Invoked H_paramsCount) p))
    as (k & b & Hrun & Hiff).
  exists k, b. rewrite Hrun, records_app. split; [ reflexivity | ].
  rewrite Hiff. unfold ValidParamId. fold count.
  rewrite Z2Nat.id by apply to_uint32_range.
  reflexivity.
Qed.

Lemma ValidParamId_found (param_id : clap_id) (t : thread) (p : Plugin A) :
  mainThreadPasses t p = true ->
  result (isValidParamId param_id t p) = Some true ->
  ValidParamId (derived p) param_id.
Proof.
  intros Hthread Hres.
  destruct (isValidParamId_run param_id t p Hthread)
    as (k & b & Hrun & Hiff).
  rewrite Hrun in Hres. simpl in Hres. apply Hiff. congruence.
Qed.

Lemma ValidParamId_not_found (param_id : clap_id) (t : thread)
    (p : Plugin A) :
  mainThreadPasses t p = true ->
  result (isValidParamId param_id t p) = Some false ->
  ~ ValidParamId (derived p) param_id.
Proof.
  intros Hthread Hres Hvalid.
  destruct (isValidParamId_run param_id t p Hthread)
    as (k & b & Hrun & Hiff).
  rewrite Hrun in Hres. simpl in Hres. apply Hiff in Hvalid. congruence.
Qed.

(** Settles an id-based query once its validity scan has been run: with
    the id found the override is reached, otherwise the diagnostic is. *)
Ltac gate_by_scan Hrun Hiff :=
  unfold rejected, delegated; rewrite Hrun; cbn beta iota;
  match goal with
  | |- context [ negb ?b ] => destruct b
  end;
  cbn [negb];
  [ split;
    [ intros Hno; exfalso; apply Hno, Hiff; reflexivity
    | intros _; rewrite derived_records;
      match goal with
      | |- context [ let (_, _) := ?f in _ ] => destruct f
      end;
      eexists; split; [ reflexivity | apply scan_quiet; reflexivity ] ]
  | split;
    [ intros _; rewrite hostMisbehaving_run;
      do 2 eexists; split; [ reflexivity | apply scan_quiet; reflexivity ]
    | intros Hyes; apply Hiff in Hyes; discriminate ] ].

Lemma clapParamsEnumValue_gate (param_id : clap_id) (value_index : Z)
    (t : thread) (p : Plugin A) :
  mainThreadPasses t p = true ->
  (~ ValidParamId (derived p) param_id ->
   rejected H_paramsEnumValue None
     (clapParamsEnumValue param_id value_index t p) p) /\
  (ValidParamId (derived p) param_id ->
   delegated H_paramsEnumValue (paramsEnumValue param_id value_index)
     (clapParamsEnumValue param_id value_index t p) p).
Proof.
  intros Hthread.
  destruct (isValidParamId_run param_id t p Hthread)
    as (k & b & Hrun & Hiff).
  unfold clapParamsEnumValue; enter Hthread.
  gate_by_scan Hrun Hiff.
Qed.

Lemma clapParamsValue_gate (param_id : clap_id) (t : thread)
    (p : Plugin A) :
  mainThreadPasses t p = true ->
  (~ ValidParamId (derived p) param_id ->
   rejected H_paramsValue None (clapParamsValue param_id t p) p) /\
  (ValidParamId (derived p) param_id ->
   delegated H_paramsValue (paramsValue param_id)
     (clapParamsValue param_id t p) p).
Proof.
  intros Hthread.
  destruct (isValidParamId_run param_id t p Hthread)
    as (k & b & Hrun & Hiff).
  unfold clapParamsValue; enter Hthread.
  gate_by_scan Hrun Hiff.
Qed.

Lemma clapParamsSetValue_gate (param_id : clap_id)
    (value modulation : clap_param_value) (t : thread) (p : Plugin A) :
  mainThreadPasses t p = true -> isActive_ p = false ->
  (~ ValidParamId (derived p) param_id ->
   rejected H_paramsSetValue false
     (clapParamsSetValue param_id value modulation t p) p) /\
  (ValidParamId (derived p) param_id ->
   delegated H_paramsSetValue (paramsSetValue param_id value modulation)
     (clapParamsSetValue param_id value modulation t p) p).
Proof.
  intros Hthread Hinactive.
  destruct (isValidParamId_run param_id t p Hthread)
    as (k & b & Hrun & Hiff).
  unfold clapParamsSetValue; enter Hthread.
  rewrite Hinactive.
  gate_by_scan Hrun Hiff.
Qed.

Lemma clapParamsValueToText_gate (param_id : clap_id)
    (value : clap_param_value) (size : Z) (t : thread) (p : Plugin A) :
  mainThreadPasses t p = true ->
  (~ ValidParamId (derived p) param_id ->
   rejected H_paramsValueToText None
     (clapParamsValueToText param_id value size t p) p) /\
  (ValidParamId (derived p) param_id ->
   delegated H_paramsValueToText (paramsValueToText param_id value size)
     (clapParamsValueToText param_id value size t p) p).
Proof.
  intros Hthread.
  destruct (isValidParamId_run param_id t p Hthread)
    as (k & b & Hrun & Hiff).
  unfold clapParamsValueToText; enter Hthread.
  gate_by_scan Hrun Hiff.
Qed.

Lemma clapParamsTextToValue_gate (param_id : clap_id) (display : string)
    (t : thread) (p : Plugin A) :
  mainThreadPasses t p = true ->
  (~ ValidParamId (derived p) param_id ->
   rejected H_paramsTextToValue None
     (clapParamsTextToValue param_id display t p) p) /\
  (ValidParamId (derived p) param_id ->
   delegated H_paramsTextToValue (paramsTextToValue param_id display)
     (clapParamsTextToValue param_id display t p) p).
Proof.
  intros Hthread.
  destruct (isValidParamId_run param_id t p Hthread)
    as (k & b & Hrun & Hiff).
  unfold clapParamsTextToValue; enter Hthread.
  gate_by_scan Hrun Hiff.
Qed.

(** C7.  On the main thread: [isValidParamId] returns, and answers [true]
    exactly for the ids that some index below [paramsCount()] reports
    through a successful [paramsInfo]; for an id that is not valid,
    [paramsEnumValue], [paramsValue], [paramsSetValue] on an inactive
    instance, [paramsValueToText] and [paramsTextToValue] answer [false]
    after a misbehaviour diagnostic without reaching the author's method of
    that name; for a valid id each of them runs that method and hands back
    its answer. *)
Theorem param_id_validity_gates_queries (param_id : clap_id) (t : thread)
    (p : Plugin A)
    (Hthread : mainThreadPasses t p = true) :
  (exists b,
     result (isValidParamId param_id t p) = Some b /\
     (b = true <-> ValidParamId (derived p) param_id)) /\
  (~ ValidParamId (derived p) param_id ->
   (forall value_index,
      rejected H_paramsEnumValue None
        (clapParamsEnumValue param_id value_index t p) p) /\
   rejected H_paramsValue None (clapParamsValue param_id t p) p /\
   (isActive_ p = false ->
    forall value modulation,
      rejected H_paramsSetValue false
        (clapParamsSetValue param_id value modulation t p) p) /\
   (forall value size,
      rejected H_paramsValueToText None
        (clapParamsValueToText param_id value size t p) p) /\
   (forall display,
      rejected H_paramsTextToValue None
        (clapParamsTextToValue param_id display t p) p)) /\
  (ValidParamId (derived p) param_id ->
   (forall value_index,
      delegated H_paramsEnumValue (paramsEnumValue param_id value_index)
        (clapParamsEnumValue param_id value_index t p) p) /\
   delegated H_paramsValue (paramsValue param_id)
     (clapParamsValue param_id t p) p /\
   (isActive_ p = false ->
    forall value modulation,
      delegated H_paramsSetValue (paramsSetValue param_id value modulation)
        (clapParamsSetValue param_id value modulation t p) p) /\
   (forall value size,
      delegated H_paramsValueToText (paramsValueToText param_id value size)
        (clapParamsValueToText param_id value size t p) p) /\
   (forall display,
      delegated H_paramsTextToValue (paramsTextToValue param_id display)
        (clapParamsTextToValue param_id display t p) p)).
Proof.
  split; [ | split ].
  - destruct (isValidParamId_run param_id t p Hthread)
      as (k & b & Hrun & Hiff).
    exists b. rewrite Hrun. split; [ reflexivity | exact Hiff ].
  - intros Hno. split; [ | split; [ | split; [ | split ] ] ].
    + intros value_index.
      apply (clapParamsEnumValue_gate param_id value_index t p Hthread).
      exact Hno.
    + apply (clapParamsValue_gate param_id t p Hthread). exact Hno.
    + intros Hinactive value modulation.
      apply (clapParamsSetValue_gate param_id value modulation t p
               Hthread Hinactive).
      exact Hno.
    + intros value size.
      apply (clapParamsValueToText_gate param_id value size t p Hthread).
      exact Hno.
    + intros display.
      apply (clapParamsTextToValue_gate param_id display t p Hthread).
      exact Hno.
  - intros Hyes. split; [ | split; [ | split; [ | split ] ] ].
    + intros value_index.
      apply (clapParamsEnumValue_gate param_id value_index t p Hthread).
      exact Hyes.
    + apply (clapParamsValue_gate param_id t p Hthread). exact Hyes.
    + intros Hinactive value modulation.
      apply (clapParamsSetValue_gate param_id value modulation t p
               Hthread Hinactive).
      exact Hyes.
    + intros value size.
      apply (clapParamsValueToText_gate param_id value size t p Hthread).
      exact Hyes.
    + intros display.
      apply (clapParamsTextToValue_gate param_id display t p Hthread).
      exact Hyes.
Qed.

End AdapterProperties.

(** ** The properties at work on the demo plugin *)

Lemma clapProcess_gate_demo :
  rejected H_process 0%Z
    (clapProcess (author := demoAuthor) 7%Z AudioThread
       (activated checkingHost demoPlugin))
    (activated checkingHost demoPlugin) /\
  delegated H_process (process (PluginAuthor := demoAuthor) 7%Z)
    (clapProcess (author := demoAuthor) 7%Z AudioThread
       (started checkingHost demoPlugin))
    (started checkingHost demoPlugin).
Proof.
  split.
  - apply (clapProcess_gate (author := demoAuthor) 7%Z AudioThread
             (activated checkingHost demoPlugin) eq_refl).
    reflexivity.
  - apply (clapProcess_gate (author := demoAuthor) 7%Z AudioThread
             (started checkingHost demoPlugin) eq_refl).
    reflexivity.
Defined.

Lemma clapActivate_from_inactive_demo :
  (exists msg,
     clapActivate (author := demoAuthor) false 0 MainThread
       (initialised checkingHost demoPlugin)
     = Returned false (report msg (initialised checkingHost demoPlugin)) /\
     Inactive (report msg (initialised checkingHost demoPlugin))) /\
  (exists p',
     clapActivate (author := demoAuthor) false 48000 MainThread
       (initialised checkingHost refusingPlugin)
     = Returned false p' /\
     Inactive p') /\
  (exists p',
     clapActivate (author := demoAuthor) false 48000 MainThread
       (initialised checkingHost demoPlugin)
     = Returned true p' /\
     Active p' /\ sampleRate_ p' = 48000).
Proof.
  split; [ | split ].
  - apply (clapActivate_from_inactive (author := demoAuthor) false 0
             MainThread (initialised checkingHost demoPlugin) eq_refl
             (conj eq_refl eq_refl)).
    lia.
  - apply (clapActivate_from_inactive (author := demoAuthor) false 48000
             MainThread (initialised checkingHost refusingPlugin) eq_refl
             (conj eq_refl eq_refl)).
    + lia.
    + reflexivity.
  - apply (clapActivate_from_inactive (author := demoAuthor) false 48000
             MainThread (initialised checkingHost demoPlugin) eq_refl
             (conj eq_refl eq_refl)).
    + lia.
    + reflexivity.
Defined.

Lemma clapDeactivate_leaves_active_demo :
  exists p',
    clapDeactivate (author := demoAuthor) MainThread
      (activated bareHost demoPlugin)
    = Returned tt p' /\
    invocations H_deactivate (trace p')
    = S (invocations H_deactivate (trace (activated bareHost demoPlugin))) /\
    isActive_ p' = true /\
    sampleRate_ p' = sampleRate_ (activated bareHost demoPlugin).
Proof.
  apply (clapDeactivate_leaves_active (author := demoAuthor) MainThread
           (activated bareHost demoPlugin) eq_refl).
  reflexivity.
Defined.

Lemma clapActivate_twice_never_inactive_demo :
  exists p',
    clapActivate (author := demoAuthor) false 48000 MainThread
      (activated bareHost demoPlugin)
    = AssertFailed p' /\
    isActive_ p' = true /\
    sampleRate_ p' = sampleRate_ (activated bareHost demoPlugin) /\
    invocations H_deactivate (trace p')
    = S (invocations H_deactivate (trace (activated bareHost demoPlugin))) /\
    invocations H_activate (trace p')
    = invocations H_activate (trace (activated bareHost demoPlugin)).
Proof.
  apply (clapActivate_twice_never_inactive (author := demoAuthor) 48000
           MainThread (activated bareHost demoPlugin) eq_refl eq_refl).
  - vm_compute. discriminate.
  - lia.
Defined.

Lemma clapAudioPortsSetConfig_while_active_demo :
  exists msg p',
    clapAudioPortsSetConfig (author := demoAuthor) 3 MainThread
      (activated bareHost demoPlugin)
    = Returned
        (fst (audioPortsSetConfig (PluginAuthor := demoAuthor) 3
                (derived (activated bareHost demoPlugin))))
        p' /\
    p' = set_derived
           (snd (audioPortsSetConfig (PluginAuthor := demoAuthor) 3
                   (derived (activated bareHost demoPlugin))))
           (record (Invoked H_audioPortsSetConfig)
              (report msg (activated bareHost demoPlugin))) /\
    invocations H_audioPortsSetConfig (trace p')
    = S (invocations H_audioPortsSetConfig
           (trace (activated bareHost demoPlugin))).
Proof.
  apply (clapAudioPortsSetConfig_while_active (author := demoAuthor) 3
           MainThread (activated bareHost demoPlugin) eq_refl eq_refl).
Defined.

(** C3, as stated, fails: after a [clapInit] whose author's [init] answers
    failure, the six slots are assigned, not null. *)
Lemma failed_init_leaves_slots_wired :
  result (clapInit (author := demoAuthor) false MainThread
            (Plugin_new (headers := demoHeaders) "demo" bareHost
               failingPlugin))
  = Some false /\
  plugin_process
    (plugin_ (final (clapInit (author := demoAuthor) false MainThread
                       (Plugin_new (headers := demoHeaders) "demo" bareHost
                          failingPlugin))))
  = Some FnClapProcess /\
  ~ slots_null
      (plugin_ (final (clapInit (author := demoAuthor) false MainThread
                         (Plugin_new (headers := demoHeaders) "demo" bareHost
                            failingPlugin)))).
Proof.
  split; [ reflexivity | split; [ reflexivity | ] ].
  intros (H & _). vm_compute in H. discriminate.
Qed.

(** C8, as stated, fails: with a thread-check table that is incomplete (it
    lacks [is_audio_thread]), [ensureMainThread] and [checkMainThread] on a
    thread other than the main one do not return; they terminate. *)
Lemma incomplete_thread_check_still_enforced :
  canUseThreadCheck (initialised halfCheckingHost demoPlugin) = false /\
  ensureMainThread "clap_plugin.activate" AudioThread
    (initialised halfCheckingHost demoPlugin)
  = Terminated
      (report
         "Host called the method clap_plugin.activate() on wrong thread! It must be called on main thread!"
         (initialised halfCheckingHost demoPlugin)) /\
  ensureMainThread "clap_plugin.activate" AudioThread
    (initialised halfCheckingHost demoPlugin)
  <> Returned tt (initialised halfCheckingHost demoPlugin) /\
  checkMainThread AudioThread (initialised halfCheckingHost demoPlugin)
  = Terminated (initialised halfCheckingHost demoPlugin).
Proof.
  split; [ | split; [ | split ] ].
  - vm_compute. reflexivity.
  - vm_compute. reflexivity.
  - intros H. vm_compute in H. discriminate H.
  - vm_compute. reflexivity.
Qed.

Lemma thread_guards_follow_own_query_demo :
  ensureAudioThread "clap_plugin.process" MainThread
    (initialised halfCheckingHost demoPlugin)
  = Returned tt (initialised halfCheckingHost demoPlugin) /\
  (exists msg,
     ensureMainThread "clap_plugin.activate" AudioThread
       (initialised halfCheckingHost demoPlugin)
     = Terminated (report msg (initialised halfCheckingHost demoPlugin))) /\
  checkMainThread AudioThread (initialised halfCheckingHost demoPlugin)
  = Terminated (initialised halfCheckingHost demoPlugin) /\
  (ensureMainThread "clap_plugin.activate" AudioThread
     (initialised bareHost demoPlugin)
   = Returned tt (initialised bareHost demoPlugin) /\
   checkMainThread AudioThread (initialised bareHost demoPlugin)
   = Returned tt (initialised bareHost demoPlugin)) /\
  (exists msg,
     ensureAudioThread "clap_plugin.process" MainThread
       (initialised checkingHost demoPlugin)
     = Terminated (report msg (initialised checkingHost demoPlugin))).
Proof.
  split; [ | split; [ | split; [ | split ] ] ].
  - apply (thread_guards_follow_own_query "clap_plugin.process" MainThread
             (initialised halfCheckingHost demoPlugin)).
    right. eexists. split; reflexivity.
  - apply (thread_guards_follow_own_query "clap_plugin.activate" AudioThread
             (initialised halfCheckingHost demoPlugin)).
    do 2 eexists. repeat split; reflexivity.
  - apply (thread_guards_follow_own_query "clap_plugin.activate" AudioThread
             (initialised halfCheckingHost demoPlugin)).
    do 2 eexists. repeat split; reflexivity.
  - apply (thread_guards_follow_own_query "clap_plugin.activate" AudioThread
             (initialised bareHost demoPlugin)).
    left. reflexivity.
  - apply (thread_guards_follow_own_query "clap_plugin.process" MainThread
             (initialised checkingHost demoPlugin)).
    do 2 eexists. repeat split; reflexivity.
Defined.

Lemma demo_ids_distinct :
  NoDup [CLAP_EXT_RENDER; @CLAP_EXT_TRACK_INFO demoHeaders;
         @CLAP_EXT_AUDIO_PORTS demoHeaders; @CLAP_EXT_PARAMS demoHeaders].
Proof.
  repeat constructor; cbn; intuition discriminate.
Qed.

Lemma clapExtension_dispatch_demo :
  clapExtension (author := demoAuthor) "clap/render" MainThread
    (initialised bareHost demoPlugin)
  = Returned (Some pluginRender_) (initialised bareHost demoPlugin) /\
  clapExtension (author := demoAuthor) "clap/track-info" MainThread
    (initialised bareHost demoPlugin)
  = Returned (Some pluginTrackInfo_) (initialised bareHost demoPlugin) /\
  result (clapExtension (author := demoAuthor) "clap/params" MainThread
            (initialised bareHost demoPlugin))
  = Some (Some pluginParams_) /\
  delegated H_extension
    (fun a =>
       (option_map authorTable
          (fst (extension (PluginAuthor := demoAuthor) "clap/audio-ports" a)),
        snd (extension (PluginAuthor := demoAuthor) "clap/audio-ports" a)))
    (clapExtension (author := demoAuthor) "clap/audio-ports" MainThread
       (initialised bareHost demoPlugin))
    (initialised bareHost demoPlugin).
Proof.
  split; [ | split; [ | split ] ].
  - apply (clapExtension_dispatch (author := demoAuthor) "clap/render"
             MainThread (initialised bareHost demoPlugin) eq_refl
             demo_ids_distinct).
    reflexivity.
  - apply (clapExtension_dispatch (author := demoAuthor) "clap/track-info"
             MainThread (initialised bareHost demoPlugin) eq_refl
             demo_ids_distinct).
    reflexivity.
  - apply (clapExtension_dispatch (author := demoAuthor) "clap/params"
             MainThread (initialised bareHost demoPlugin) eq_refl
             demo_ids_distinct);
      reflexivity.
  - apply (clapExtension_dispatch (author := demoAuthor) "clap/audio-ports"
             MainThread (initialised bareHost demoPlugin) eq_refl
             demo_ids_distinct).
    + discriminate.
    + discriminate.
    + intros (_ & H). vm_compute in H. discriminate.
    + intros (H & _). discriminate.
Defined.

Lemma clapParamsIinfo_negative_index_demo :
  rejected H_paramsInfo None
    (clapParamsIinfo (author := demoAuthor) (-1) MainThread
       (initialised bareHost demoPlugin))
    (initialised bareHost demoPlugin).
Proof.
  apply (clapParamsIinfo_negative_index (author := demoAuthor) (-1)
           MainThread (initialised bareHost demoPlugin) eq_refl).
  - lia.
  - lia.
  - vm_compute. split; discriminate || reflexivity.
Defined.

Lemma param_id_validity_gates_queries_demo :
  rejected H_paramsValue None
    (clapParamsValue (author := demoAuthor) 99 MainThread
       (initialised bareHost demoPlugin))
    (initialised bareHost demoPlugin) /\
  delegated H_paramsValue (paramsValue (PluginAuthor := demoAuthor) 20)
    (clapParamsValue (author := demoAuthor) 20 MainThread
       (initialised bareHost demoPlugin))
    (initialised bareHost demoPlugin) /\
  delegated H_paramsSetValue
    (paramsSetValue (PluginAuthor := demoAuthor) 20 5 0)
    (clapParamsSetValue (author := demoAuthor) 20 5 0 MainThread
       (initialised bareHost demoPlugin))
    (initialised bareHost demoPlugin).
Proof.
  destruct (param_id_validity_gates_queries (author := demoAuthor) 99
              MainThread (initialised bareHost demoPlugin) eq_refl)
    as (_ & Hno & _).
  destruct (param_id_validity_gates_queries (author := demoAuthor) 20
              MainThread (initialised bareHost demoPlugin) eq_refl)
    as (_ & _ & Hyes).
  assert (H99 : ~ ValidParamId (author := demoAuthor)
                  (derived (initialised bareHost demoPlugin)) 99).
  { apply (ValidParamId_not_found (author := demoAuthor) 99 MainThread);
      vm_compute; reflexivity. }
  assert (H20 : ValidParamId (author := demoAuthor)
                  (derived (initialised bareHost demoPlugin)) 20).
  { apply (ValidParamId_found (author := demoAuthor) 20 MainThread);
      vm_compute; reflexivity. }
  destruct (Hno H99) as (_ & Hvalue99 & _).
  destruct (Hyes H20) as (_ & Hvalue20 & Hset20 & _).
  split; [ exact Hvalue99 | split; [ exact Hvalue20 | ] ].
  apply Hset20. reflexivity.
Defined.

(** ** Further properties of the adapter *)

Section FurtherProperties.

Context {headers : ClapHeaders} {A : Type} {author : PluginAuthor A}.

Variable NDEBUG : bool.

Local Notation "x <- c ;; k" := (bind c (fun x => k))
  (at level 61, c at next level, right associativity).
Local Notation "c ;;; k" := (bind c (fun _ => k))
  (at level 61, right associativity).

(** Unfolds the sequencing of an entry point, the guard being settled by
    [Hguard]. *)
Ltac step_in Hguard :=
  unfold bind, this, modify, ret, invoke_void, invoke_const, invoke;
  repeat first [ rewrite (ensureMainThread_pass _ _ _ Hguard)
               | rewrite (ensureAudioThread_pass _ _ _ Hguard)
               | rewrite (ensureMainThread_stop _ _ _ Hguard)
               | rewrite (ensureAudioThread_stop _ _ _ Hguard) ];
  cbn beta iota.

(** *** Starting and stopping *)

Lemma clapStartProcessing_run (t : thread) (p : Plugin A) :
  audioThreadPasses t p = true ->
  isActive_ p = true -> isProcessing_ p = false ->
  clapStartProcessing t p
  = Returned (fst (startProcessing (derived p)))
      (set_isProcessing_ (fst (startProcessing (derived p)))
         (set_derived (snd (startProcessing (derived p)))
            (record (Invoked H_startProcessing) p))).
Proof.
  intros Hthread Ha Hp. unfold clapStartProcessing; step_in Hthread.
  rewrite Ha, Hp. cbn [negb].
  destruct (startProcessing (derived p)) as [ok a]. reflexivity.
Qed.

Lemma clapStartProcessing_again (t : thread) (p : Plugin A) :
  audioThreadPasses t p = true ->
  isActive_ p = true -> isProcessing_ p = true ->
  exists msg, clapStartProcessing t p = Returned true (report msg p).
Proof.
  intros Hthread Ha Hp. unfold clapStartProcessing; step_in Hthread.
  rewrite Ha, Hp. cbn [negb]. rewrite hostMisbehaving_run.
  eexists; reflexivity.
Qed.

Lemma clapStopProcessing_run (t : thread) (p : Plugin A) :
  audioThreadPasses t p = true ->
  isActive_ p = true -> isProcessing_ p = true ->
  clapStopProcessing t p
  = Returned tt
      (set_isProcessing_ false
         (set_derived (stopProcessing (derived p))
            (record (Invoked H_stopProcessing) p))).
Proof.
  intros Hthread Ha Hp. unfold clapStopProcessing; step_in Hthread.
  rewrite Ha, Hp. reflexivity.
Qed.

Lemma clapProcess_run (block : clap_process) (t : thread) (p : Plugin A) :
  audioThreadPasses t p = true ->
  isActive_ p = true -> isProcessing_ p = true ->
  clapProcess block t p
  = Returned (fst (process block (derived p)))
      (set_derived (snd (process block (derived p)))
         (record (Invoked H_process) p)).
Proof.
  intros Hthread Ha Hp. unfold clapProcess; step_in Hthread.
  rewrite Ha, Hp. cbn [negb].
  destruct (process block (derived p)); reflexivity.
Qed.

Lemma clapProcess_refused (block : clap_process) (t : thread)
    (p : Plugin A) :
  audioThreadPasses t p = true ->
  isActive_ p && isProcessing_ p = false ->
  rejected H_process CLAP_PROCESS_ERROR (clapProcess block t p) p.
Proof.
  intros Hthread Hst. unfold clapProcess; step_in Hthread.
  exists [].
  destruct (isActive_ p) eqn:Ha; cbn [negb].
  - simpl in Hst. rewrite Hst. cbn [negb].
    rewrite hostMisbehaving_run. eexists. split; reflexivity.
  - rewrite hostMisbehaving_run. eexists. split; reflexivity.
Qed.

(** X1.  On the audio thread, [start_processing] is refused with [false]
    and a diagnostic on an inactive instance, acknowledged with [true] and
    a diagnostic, the author's [startProcessing] left alone, on an instance
    that is processing already, and otherwise runs the author's
    [startProcessing] once, hands back its answer and makes it the
    processing flag. *)
Theorem clapStartProcessing_cases (t : thread) (p : Plugin A)
    (Hthread : audioThreadPasses t p = true) :
  (isActive_ p = false ->
   exists msg, clapStartProcessing t p = Returned false (report msg p)) /\
  (isActive_ p = true -> isProcessing_ p = true ->
   exists msg, clapStartProcessing t p = Returned true (report msg p)) /\
  (isActive_ p = true -> isProcessing_ p = false ->
   exists p',
     clapStartProcessing t p
     = Returned (fst (startProcessing (derived p))) p' /\
     isProcessing_ p' = fst (startProcessing (derived p)) /\
     isActive_ p' = true /\ sampleRate_ p' = sampleRate_ p /\
     derived p' = snd (startProcessing (derived p)) /\
     trace p' = Invoked H_startProcessing :: trace p).
Proof.
  split; [ | split ].
  - intros Ha. unfold clapStartProcessing; step_in Hthread.
    rewrite Ha. cbn [negb]. rewrite hostMisbehaving_run.
    eexists; reflexivity.
  - intros Ha Hp. exact (clapStartProcessing_again t p Hthread Ha Hp).
  - intros Ha Hp. eexists.
    split; [ exact (clapStartProcessing_run t p Hthread Ha Hp) | ].
    repeat split. exact Ha.
Qed.

(** X2.  On the audio thread, [stop_processing] only reports a diagnostic
    on an instance that is inactive or not processing, and otherwise runs
    the author's [stopProcessing] once and clears the processing flag,
    the instance staying active at its sample rate. *)
Theorem clapStopProcessing_cases (t : thread) (p : Plugin A)
    (Hthread : audioThreadPasses t p = true) :
  (isActive_ p && isProcessing_ p = false ->
   exists msg, clapStopProcessing t p = Returned tt (report msg p)) /\
  (isActive_ p && isProcessing_ p = true ->
   exists p',
     clapStopProcessing t p = Returned tt p' /\
     isProcessing_ p' = false /\ isActive_ p' = true /\
     sampleRate_ p' = sampleRate_ p /\
     derived p' = stopProcessing (derived p) /\
     trace p' = Invoked H_stopProcessing :: trace p).
Proof.
  split; intros Hst.
  - unfold clapStopProcessing; step_in Hthread.
    destruct (isActive_ p) eqn:Ha; cbn [negb].
    + simpl in Hst. rewrite Hst. cbn [negb].
      rewrite hostMisbehaving_run. eexists; reflexivity.
    + rewrite hostMisbehaving_run. eexists; reflexivity.
  - apply andb_true_iff in Hst. destruct Hst as [Ha Hp]. eexists.
    split; [ exact (clapStopProcessing_run t p Hthread Ha Hp) | ].
    repeat split. exact Ha.
Qed.

(** X3.  On the audio thread, for an active instance that is not
    processing and whose author accepts to start: two [start_processing]
    calls in a row both answer [true], and the author's [startProcessing]
    runs for the first of them only. *)
Theorem clapStartProcessing_twice (t : thread) (p : Plugin A)
    (Hthread : audioThreadPasses t p = true)
    (Hactive : isActive_ p = true) (Hidle : isProcessing_ p = false)
    (Haccepts : fst (startProcessing (derived p)) = true) :
  exists p1 p2,
    clapStartProcessing t p = Returned true p1 /\
    clapStartProcessing t p1 = Returned true p2 /\
    invocations H_startProcessing (trace p2)
    = S (invocations H_startProcessing (trace p)) /\
    derived p2 = snd (startProcessing (derived p)).
Proof.
  pose proof (clapStartProcessing_run t p Hthread Hactive Hidle) as Hrun1.
  rewrite Haccepts in Hrun1.
  set (p1 := set_isProcessing_ true _) in Hrun1.
  destruct (clapStartProcessing_again t p1 Hthread Hactive eq_refl)
    as (msg & Hrun2).
  exists p1, (report msg p1). repeat split; try assumption.
  rewrite invocations_report. apply invocations_invoke_same.
Qed.

(** *** What an entry point leaves alone *)

Section View.

Variable X : Type.
Variable f : Plugin A -> X.

(** The view looks neither at the trace nor at the subclass members. *)
Hypothesis f_record : forall e p, f (record e p) = f p.
Hypothesis f_derived : forall a p, f (set_derived a p) = f p.

Lemma kept_bind {R S : Type} (c : M A R) (k : R -> M A S) :
  keeps f c -> (forall r, keeps f (k r)) -> keeps f (bind c k).
Proof.
  intros Hc Hk t p. unfold bind. specialize (Hc t p).
  destruct (c t p) as [r p' | p' | p']; simpl in Hc |- *;
    [ rewrite Hk | | ]; exact Hc.
Qed.

Lemma kept_ret {R : Type} (r : R) : keeps f (ret r).
Proof. intros t p. reflexivity. Qed.

Lemma kept_this : keeps f this.
Proof. intros t p. reflexivity. Qed.

Lemma kept_current_thread : keeps f current_thread.
Proof. intros t p. reflexivity. Qed.

Lemma kept_terminate {R : Type} : keeps f (R := R) terminate.
Proof. intros t p. reflexivity. Qed.

Lemma kept_assert (b : bool) : keeps f (assert NDEBUG b).
Proof. intros t p. unfold assert. destruct (NDEBUG || b); reflexivity. Qed.

Lemma kept_modify (g : Plugin A -> Plugin A) :
  (forall p, f (g p) = f p) -> keeps f (modify g).
Proof. intros H t p. apply H. Qed.

Lemma kept_invoke {R : Type} (h : hook) (g : A -> R * A) :
  keeps f (invoke h g).
Proof.
  intros t p. unfold invoke. destruct (g (derived p)). simpl.
  rewrite f_derived. apply f_record.
Qed.

Lemma kept_invoke_const {R : Type} (h : hook) (g : A -> R) :
  keeps f (invoke_const h g).
Proof. intros t p. apply f_record. Qed.

Lemma kept_hostMisbehaving (msg : string) : keeps f (hostMisbehaving msg).
Proof.
  intros t p. rewrite hostMisbehaving_run. apply f_record.
Qed.

Lemma kept_isValidParamId_from (n : nat) (param_id : clap_id) :
  forall i, keeps f (isValidParamId_from n i param_id).
Proof.
  induction n as [ | n IH ]; intros i; cbn [isValidParamId_from].
  - apply kept_ret.
  - apply kept_bind; [ apply kept_invoke_const | intros [info | ] ].
    + destruct (Z.eqb (id info) param_id); [ apply kept_ret | apply IH ].
    + apply IH.
Qed.

End View.

(** Walks through the sequencing and the branches of a computation for a
    concrete view. *)
Ltac kept :=
  repeat first
    [ apply kept_ret
    | apply kept_this
    | apply kept_current_thread
    | apply kept_terminate
    | apply kept_assert
    | apply kept_hostMisbehaving; intros; reflexivity
    | apply kept_invoke_const; intros; reflexivity
    | apply kept_invoke; intros; reflexivity
    | apply kept_isValidParamId_from; intros; reflexivity
    | apply kept_modify; intros; reflexivity
    | apply kept_bind; [ | intros ]
    | progress unfold matches_and
    | match goal with
      | |- keeps _ (if ?b then _ else _) => destruct b
      | |- keeps _ (match ?x with _ => _ end) => destruct x
      end ].

(** X4.  Once looked up, the host interfaces that the guards, the log and
    the track-info fetch use stay as they are: no entry point other than
    [clapInit] changes them, however the call ends. *)
Theorem capabilities_fixed_after_init :
  keeps (A := A) used_capabilities clapDeactivate /\
  (forall sample_rate,
     keeps (A := A) used_capabilities (clapActivate NDEBUG sample_rate)) /\
  keeps (A := A) used_capabilities clapStartProcessing /\
  keeps (A := A) used_capabilities clapStopProcessing /\
  (forall block, keeps (A := A) used_capabilities (clapProcess block)) /\
  (forall ext, keeps (A := A) used_capabilities (clapExtension ext)) /\
  (forall config_id,
     keeps (A := A) used_capabilities (clapAudioPortsSetConfig config_id)) /\
  keeps (A := A) used_capabilities clapParamsCount /\
  (forall param_index,
     keeps (A := A) used_capabilities (clapParamsIinfo param_index)) /\
  (forall param_id value_index,
     keeps (A := A) used_capabilities
       (clapParamsEnumValue param_id value_index)) /\
  (forall param_id,
     keeps (A := A) used_capabilities (clapParamsValue param_id)) /\
  (forall param_id value modulation,
     keeps (A := A) used_capabilities
       (clapParamsSetValue param_id value modulation)) /\
  (forall param_id value size,
     keeps (A := A) used_capabilities
       (clapParamsValueToText param_id value size)) /\
  (forall param_id display,
     keeps (A := A) used_capabilities
       (clapParamsTextToValue param_id display)) /\
  keeps (A := A) used_capabilities (sampleRate NDEBUG).
Proof.
  repeat split; intros; kept.
Qed.

(** *** The lifecycle invariant *)

Lemma lifecycle_ok_of_view (p q : Plugin A) :
  lifecycle q = lifecycle p -> lifecycle_ok p -> lifecycle_ok q.
Proof.
  unfold lifecycle, lifecycle_ok. intros [= Ha Hp Hs].
  rewrite Ha, Hp, Hs. exact (fun H => H).
Qed.

Lemma lifecycle_ok_kept {R : Type} (c : M A R) (t : thread) (p : Plugin A) :
  keeps lifecycle c -> lifecycle_ok p -> lifecycle_ok (final (c t p)).
Proof.
  intros Hc Hok. exact (lifecycle_ok_of_view p _ (Hc t p) Hok).
Qed.

Lemma lifecycle_ok_report (msg : string) (p : Plugin A) :
  lifecycle_ok p -> lifecycle_ok (report msg p).
Proof. exact (fun H => H). Qed.

Lemma lifecycle_ok_clapStartProcessing (t : thread) (p : Plugin A) :
  lifecycle_ok p -> lifecycle_ok (final (clapStartProcessing t p)).
Proof.
  intros Hok. destruct (audioThreadPasses t p) eqn:Hthread;
    unfold clapStartProcessing; step_in Hthread; [ | exact Hok ].
  destruct (isActive_ p) eqn:Ha; cbn [negb].
  - destruct (isProcessing_ p) eqn:Hp.
    + rewrite hostMisbehaving_run. exact Hok.
    + destruct (startProcessing (derived p)) as [ok a].
      unfold lifecycle_ok in *. cbn. rewrite Ha in *.
      split; [ apply Hok | reflexivity ].
  - rewrite hostMisbehaving_run. exact Hok.
Qed.

Lemma lifecycle_ok_clapStopProcessing (t : thread) (p : Plugin A) :
  lifecycle_ok p -> lifecycle_ok (final (clapStopProcessing t p)).
Proof.
  intros Hok. destruct (audioThreadPasses t p) eqn:Hthread;
    unfold clapStopProcessing; step_in Hthread; [ | exact Hok ].
  destruct (isActive_ p) eqn:Ha; cbn [negb].
  - destruct (isProcessing_ p) eqn:Hp; cbn [negb].
    + unfold lifecycle_ok in *. cbn. rewrite Ha in *.
      split; [ apply Hok | discriminate ].
    + rewrite hostMisbehaving_run. exact Hok.
  - rewrite hostMisbehaving_run. exact Hok.
Qed.

Lemma lifecycle_ok_clapActivate (sample_rate : Z) (t : thread)
    (p : Plugin A) :
  lifecycle_ok p -> lifecycle_ok (final (clapActivate NDEBUG sample_rate t p)).
Proof.
  intros Hok. destruct (mainThreadPasses t p) eqn:Hthread;
    unfold clapActivate; step_in Hthread; [ | exact Hok ].
  assert (Hend : forall q : Plugin A,
            lifecycle q = lifecycle p ->
            mainThreadPasses t q = true ->
            lifecycle_ok
              (final
                 ((if Z.leb sample_rate 0
                   then hostMisbehaving
                          ("The plugin was activated with an invalid sample rates: "
                           ++ show sample_rate) ;;; ret false
                   else
                     self <- this ;;
                     assert NDEBUG (negb (isActive_ self)) ;;;
                     assert NDEBUG (Z.eqb (sampleRate_ self) 0) ;;;
                     ok <- invoke H_activate (activate sample_rate) ;;
                     if negb ok
                     then
                       self <- this ;;
                       assert NDEBUG (negb (isActive_ self)) ;;;
                       assert NDEBUG (Z.eqb (sampleRate_ self) 0) ;;;
                       ret false
                     else
                       modify (set_isActive_ true) ;;;
                       modify (set_sampleRate_ sample_rate) ;;;
                       ret true) t q))).
  { intros q Hq _. pose proof (lifecycle_ok_of_view p q Hq Hok) as Hokq.
    destruct (Z.leb sample_rate 0) eqn:Hsr.
    - unfold bind. rewrite hostMisbehaving_run. exact Hokq.
    - apply Z.leb_gt in Hsr.
      unfold bind, this, assert, invoke, modify, ret.
      destruct (NDEBUG || negb (isActive_ q)); [ | exact Hokq ].
      destruct (NDEBUG || Z.eqb (sampleRate_ q) 0); [ | exact Hokq ].
      destruct (activate sample_rate (derived q)) as [[ | ] a]; cbn.
      + unfold lifecycle_ok. cbn. split; [ exact Hsr | reflexivity ].
      + destruct (NDEBUG || negb (isActive_ q)); [ | exact Hokq ].
        destruct (NDEBUG || Z.eqb (sampleRate_ q) 0); exact Hokq. }
  destruct (isActive_ p) eqn:Ha.
  - rewrite hostMisbehaving_run. cbn beta iota.
    destruct (negb (Z.eqb sample_rate (sampleRate_ p))).
    + rewrite hostMisbehaving_run. cbn beta iota.
      unfold clapDeactivate; step_in Hthread.
      rewrite (ensureMainThread_pass _ t (report _ (report _ p)) Hthread).
      cbn beta iota.
      change (isActive_ (report ?m (report ?m' p))) with (isActive_ p).
      rewrite Ha. cbn [negb].
      apply Hend; [ reflexivity | exact Hthread ].
    + apply Hend; [ reflexivity | exact Hthread ].
  - apply Hend; [ reflexivity | exact Hthread ].
Qed.

(** X5.  What [sampleRate()] asserts is an invariant of the adapter: a
    new instance is inactive at rate 0 and not processing, and after any
    entry point, however it ends, an active instance still has a positive
    sample rate, an inactive one the rate 0, and only an active instance
    processes. *)
Theorem lifecycle_invariant :
  (forall desc host (a : A), lifecycle_ok (Plugin_new desc host a)) /\
  (forall (t : thread) (p : Plugin A),
     lifecycle_ok p ->
     lifecycle_ok (final (clapInit NDEBUG t p)) /\
     (forall sample_rate,
        lifecycle_ok (final (clapActivate NDEBUG sample_rate t p))) /\
     lifecycle_ok (final (clapDeactivate t p)) /\
     lifecycle_ok (final (clapStartProcessing t p)) /\
     lifecycle_ok (final (clapStopProcessing t p)) /\
     (forall block, lifecycle_ok (final (clapProcess block t p))) /\
     (forall ext, lifecycle_ok (final (clapExtension ext t p))) /\
     (forall config_id,
        lifecycle_ok (final (clapAudioPortsSetConfig config_id t p))) /\
     lifecycle_ok (final (clapParamsCount t p)) /\
     (forall param_index,
        lifecycle_ok (final (clapParamsIinfo param_index t p))) /\
     (forall param_id value_index,
        lifecycle_ok
          (final (clapParamsEnumValue param_id value_index t p))) /\
     (forall param_id, lifecycle_ok (final (clapParamsValue param_id t p))) /\
     (forall param_id value modulation,
        lifecycle_ok
          (final (clapParamsSetValue param_id value modulation t p))) /\
     (forall param_id value size,
        lifecycle_ok
          (final (clapParamsValueToText param_id value size t p))) /\
     (forall param_id display,
        lifecycle_ok
          (final (clapParamsTextToValue param_id display t p)))).
Proof.
  split.
  - intros desc host a. unfold lifecycle_ok. cbn.
    split; [ reflexivity | discriminate ].
  - intros t p Hok.
    repeat match goal with |- _ /\ _ => split end; intros;
      first [ apply lifecycle_ok_clapActivate; exact Hok
            | apply lifecycle_ok_clapStartProcessing; exact Hok
            | apply lifecycle_ok_clapStopProcessing; exact Hok
            | apply lifecycle_ok_kept; [ kept | exact Hok ] ].
Qed.

(** *** Reading the sample rate *)

(** X6.  On an instance that satisfies the lifecycle invariant,
    [sampleRate()] hands back the recorded rate and changes nothing when
    the instance is active, in any build; on an inactive instance a build
    with assertions stops at the first assertion and a build without them
    hands back 0. *)
Theorem sampleRate_cases (t : thread) (p : Plugin A)
    (Hok : lifecycle_ok p) :
  (isActive_ p = true ->
   sampleRate NDEBUG t p = Returned (sampleRate_ p) p /\ 0 < sampleRate_ p) /\
  (isActive_ p = false ->
   sampleRate false t p = AssertFailed p /\
   sampleRate true t p = Returned 0 p).
Proof.
  destruct Hok as [Hrate _].
  split; intros Ha; rewrite Ha in Hrate;
    unfold sampleRate, bind, this, assert, ret; rewrite Ha.
  - split; [ | exact Hrate ].
    apply Z.ltb_lt in Hrate. rewrite Hrate, !orb_true_r. reflexivity.
  - split; [ reflexivity | ]. cbn. rewrite Hrate. reflexivity.
Qed.

(** X7.  On the main thread, an accepted activation of an inactive
    instance at a positive rate is read back by [sampleRate()], whatever
    the build and the thread of the reader. *)
Theorem sampleRate_reads_back_activation (sample_rate : Z) (t : thread)
    (p : Plugin A)
    (Hthread : mainThreadPasses t p = true) (Hinactive : Inactive p)
    (Hpositive : 0 < sample_rate)
    (Haccepts : fst (activate sample_rate (derived p)) = true) :
  exists p',
    clapActivate NDEBUG sample_rate t p = Returned true p' /\
    forall t', sampleRate NDEBUG t' p' = Returned sample_rate p'.
Proof.
  destruct Hinactive as [Ha Hs].
  unfold clapActivate; step_in Hthread. rewrite Ha. cbn beta iota.
  apply Z.leb_gt in Hpositive. rewrite Hpositive.
  unfold assert. rewrite Ha, Hs. cbn [negb Z.eqb].
  rewrite !orb_true_r. cbn beta iota.
  destruct (activate sample_rate (derived p)) as [ok a].
  simpl in Haccepts. subst ok. cbn [negb].
  eexists. split; [ reflexivity | ].
  intros t'. unfold sampleRate, bind, this, assert, ret. cbn.
  apply Z.leb_gt, Z.ltb_lt in Hpositive. rewrite Hpositive, !orb_true_r.
  reflexivity.
Qed.

(** *** Calls on the wrong thread *)

(** X8.  When the host's [is_main_thread] answers no, each main-thread
    entry point of the running plugin terminates after the one diagnostic
    of its guard: nothing of the object changes and no method of the author
    runs. *)
Theorem main_thread_entries_stop_off_thread (t : thread) (p : Plugin A)
    (Hoff : mainThreadPasses t p = false) :
  (forall sample_rate,
     exists msg,
       clapActivate NDEBUG sample_rate t p = Terminated (report msg p)) /\
  (exists msg, clapDeactivate t p = Terminated (report msg p)) /\
  (forall ext,
     exists msg, clapExtension ext t p = Terminated (report msg p)) /\
  (forall config_id,
     exists msg,
       clapAudioPortsSetConfig config_id t p = Terminated (report msg p)) /\
  (exists msg, clapParamsCount t p = Terminated (report msg p)) /\
  (forall param_index,
     exists msg,
       clapParamsIinfo param_index t p = Terminated (report msg p)) /\
  (forall param_id value_index,
     exists msg,
       clapParamsEnumValue param_id value_index t p
       = Terminated (report msg p)) /\
  (forall param_id,
     exists msg, clapParamsValue param_id t p = Terminated (report msg p)) /\
  (forall param_id value modulation,
     exists msg,
       clapParamsSetValue param_id value modulation t p
       = Terminated (report msg p)) /\
  (forall param_id value size,
     exists msg,
       clapParamsValueToText param_id value size t p
       = Terminated (report msg p)) /\
  (forall param_id display,
     exists msg,
       clapParamsTextToValue param_id display t p
       = Terminated (report msg p)).
Proof.
  repeat match goal with |- _ /\ _ => split end; intros; eexists;
    unfold clapActivate, clapDeactivate, clapExtension,
      clapAudioPortsSetConfig, clapParamsCount, clapParamsIinfo,
      clapParamsEnumValue, clapParamsValue, clapParamsSetValue,
      clapParamsValueToText, clapParamsTextToValue;
    unfold bind at 1; rewrite (ensureMainThread_stop _ _ _ Hoff);
    reflexivity.
Qed.

(** X9.  When the host's [is_audio_thread] answers no,
    [start_processing], [stop_processing] and [process] terminate after
    the one diagnostic of their guard: nothing of the object changes and
    no method of the author runs. *)
Theorem audio_thread_entries_stop_off_thread (t : thread) (p : Plugin A)
    (Hoff : audioThreadPasses t p = false) :
  (exists msg, clapStartProcessing t p = Terminated (report msg p)) /\
  (exists msg, clapStopProcessing t p = Terminated (report msg p)) /\
  (forall block,
     exists msg, clapProcess block t p = Terminated (report msg p)).
Proof.
  repeat match goal with |- _ /\ _ => split end; intros; eexists;
    unfold clapStartProcessing, clapStopProcessing, clapProcess;
    unfold bind at 1; rewrite (ensureAudioThread_stop _ _ _ Hoff);
    reflexivity.
Qed.

(** *** Parameters *)

(** X10.  On the main thread, [set_value] on an active instance is refused
    with [false] after one diagnostic, before the id is looked at: neither
    the validity scan nor the author's [paramsSetValue] runs. *)
Theorem clapParamsSetValue_while_active (param_id : clap_id)
    (value modulation : clap_param_value) (t : thread) (p : Plugin A)
    (Hthread : mainThreadPasses t p = true) (Hactive : Active p) :
  exists msg,
    clapParamsSetValue param_id value modulation t p
    = Returned false (report msg p).
Proof.
  unfold Active in Hactive.
  unfold clapParamsSetValue; step_in Hthread.
  rewrite Hactive, hostMisbehaving_run. eexists; reflexivity.
Qed.

(** X11.  On the main thread, with a count below 2^31: an index from 0 up
    to the count is handed to the author's [paramsInfo], whose answer is
    the result, after one [paramsCount] query; an [int32_t] index from the
    count on is refused with [false] after a diagnostic and the author's
    [paramsInfo] is not reached. *)
Theorem clapParamsIinfo_by_range (param_index : Z) (t : thread)
    (p : Plugin A)
    (Hthread : mainThreadPasses t p = true)
    (Hcount : 0 <= paramsCount (derived p) < 2 ^ 31) :
  (0 <= param_index < paramsCount (derived p) ->
   clapParamsIinfo param_index t p
   = Returned (paramsInfo param_index (derived p))
       (record (Invoked H_paramsInfo) (record (Invoked H_paramsCount) p))) /\
  (paramsCount (derived p) <= param_index < 2 ^ 31 ->
   rejected H_paramsInfo None (clapParamsIinfo param_index t p) p).
Proof.
  split; intros Hrange;
    unfold clapParamsIinfo, clapParamsCount; step_in Hthread;
    rewrite (to_uint32_small (paramsCount (derived p))) by lia;
    rewrite (to_uint32_small param_index) by lia.
  - replace (paramsCount (derived p) <=? param_index)%Z with false
      by (symmetry; apply Z.leb_gt; lia).
    reflexivity.
  - replace (paramsCount (derived p) <=? param_index)%Z with true
      by (symmetry; apply Z.leb_le; lia).
    rewrite hostMisbehaving_run.
    exists [Invoked H_paramsCount]. eexists. split; reflexivity.
Qed.

(** *** Initialisation *)

Lemma initInterfaces_run (t : thread) (p : Plugin A) :
  undiscovered p -> initInterfaces NDEBUG t p = Returned tt (discovered p).
Proof.
  intros (Hlog & Htc & Hti & Hst).
  unfold discovered, initInterfaces, initStored, initInterface.
  unfold bind, this, assert, modify, ret. cbn.
  destruct (host_extension (host_ p)) as [lookup | ] eqn:Hhost;
    repeat (progress
              (rewrite ?Hlog, ?Htc, ?Hti, ?Hst, ?Hhost, ?orb_true_r; cbn));
    reflexivity.
Qed.

Lemma discovered_wired (p : Plugin A) :
  discovered (wired p) = wired (discovered p).
Proof.
  unfold discovered, wired. cbn.
  destruct (host_extension (host_ p)); reflexivity.
Qed.

Lemma discovered_untouched (p : Plugin A) :
  trace (discovered p) = trace p /\ derived (discovered p) = derived p /\
  lifecycle (discovered p) = lifecycle p /\
  plugin_ (discovered p) = plugin_ p /\
  hasTrackInfo_ (discovered p) = hasTrackInfo_ p.
Proof.
  unfold discovered.
  destruct (host_extension (host_ p)); repeat split.
Qed.

Lemma discovered_resolves (p : Plugin A) :
  undiscovered p ->
  hostLog_ (discovered p) = resolve as_log (host_ p) CLAP_EXT_LOG /\
  hostThreadCheck_ (discovered p)
  = resolve as_thread_check (host_ p) CLAP_EXT_THREAD_CHECK /\
  hostTrackInfo_ (discovered p)
  = resolve as_track_info (host_ p) CLAP_EXT_TRACK_INFO /\
  (forall k,
     hostStored_ (discovered p) k = resolve Some (host_ p) (stored_ext_id k)).
Proof.
  intros (Hlog & Htc & Hti & Hst). unfold discovered, resolve.
  destruct (host_extension (host_ p)) as [lookup | ].
  - repeat split. intros k. destruct k; reflexivity.
  - repeat split; assumption.
Qed.

Lemma clapInit_after_lookup (t : thread) (p : Plugin A) :
  undiscovered p ->
  clapInit NDEBUG t p
  = (ensureMainThread "clap_plugin.init" ;;;
     initTrackInfo NDEBUG ;;; invoke H_init init) t (wired (discovered p)).
Proof.
  intros Hfresh.
  change (clapInit NDEBUG t p)
    with ((initInterfaces NDEBUG ;;;
           ensureMainThread "clap_plugin.init" ;;;
           initTrackInfo NDEBUG ;;; invoke H_init init) t (wired p)).
  unfold bind at 1.
  rewrite (initInterfaces_run t (wired p) Hfresh), discovered_wired.
  reflexivity.
Qed.

(** X12.  Whatever thread [clapInit] runs on and however it ends, on an
    instance that has looked up nothing yet each host interface is stored
    as the host's lookup answers for its id, and every one is absent when
    the host has no lookup function. *)
Theorem clapInit_discovers (t : thread) (p : Plugin A)
    (Hfresh : undiscovered p) :
  hostLog_ (final (clapInit NDEBUG t p))
  = resolve as_log (host_ p) CLAP_EXT_LOG /\
  hostThreadCheck_ (final (clapInit NDEBUG t p))
  = resolve as_thread_check (host_ p) CLAP_EXT_THREAD_CHECK /\
  hostTrackInfo_ (final (clapInit NDEBUG t p))
  = resolve as_track_info (host_ p) CLAP_EXT_TRACK_INFO /\
  (forall k,
     hostStored_ (final (clapInit NDEBUG t p)) k
     = resolve Some (host_ p) (stored_ext_id k)) /\
  (host_extension (host_ p) = None ->
   undiscovered (final (clapInit NDEBUG t p))).
Proof.
  assert (Hview :
    (fun q : Plugin A =>
       (hostLog_ q, hostThreadCheck_ q, hostTrackInfo_ q, hostStored_ q))
      (final (clapInit NDEBUG t p))
    = (fun q : Plugin A =>
         (hostLog_ q, hostThreadCheck_ q, hostTrackInfo_ q, hostStored_ q))
        (discovered p)).
  { rewrite (clapInit_after_lookup t p Hfresh).
    assert (Hrest :
      keeps (A := A)
        (fun q : Plugin A =>
           (hostLog_ q, hostThreadCheck_ q, hostTrackInfo_ q, hostStored_ q))
        (ensureMainThread "clap_plugin.init" ;;;
         initTrackInfo NDEBUG ;;; invoke H_init init)) by kept.
    rewrite (Hrest t (wired (discovered p))). reflexivity. }
  cbn beta in Hview. injection Hview as Hlog Htc Hti Hst.
  destruct (discovered_resolves p Hfresh) as (Rlog & Rtc & Rti & Rst).
  rewrite Hlog, Htc, Hti, Hst.
  repeat match goal with |- _ /\ _ => split end; try assumption.
  intros Hnone. unfold undiscovered. rewrite Hlog, Htc, Hti, Hst.
  rewrite Rlog, Rtc, Rti. unfold resolve. rewrite Hnone.
  repeat split. intros k. rewrite Rst. unfold resolve. rewrite Hnone.
  reflexivity.
Qed.

(** X13.  [clapInit] checks the thread with the thread-check interface it
    has just looked up: when that one answers that the call is off the
    main thread, the call terminates after one diagnostic, the six slots
    assigned and the interfaces stored, before the track info is fetched
    and before the author's [init] runs. *)
Theorem clapInit_off_main_thread (t : thread) (p : Plugin A)
    (Hfresh : undiscovered p)
    (Hoff : mainThreadPasses t (discovered p) = false) :
  exists msg,
    clapInit NDEBUG t p = Terminated (report msg (wired (discovered p))) /\
    trace (wired (discovered p)) = trace p /\
    derived (wired (discovered p)) = derived p /\
    hasTrackInfo_ (wired (discovered p)) = hasTrackInfo_ p /\
    slots_wired (plugin_ (wired (discovered p))).
Proof.
  eexists. split.
  - rewrite (clapInit_after_lookup t p Hfresh).
    unfold bind at 1.
    rewrite (ensureMainThread_stop _ t (wired (discovered p)) Hoff).
    reflexivity.
  - destruct (discovered_untouched p) as (Htr & Hder & _ & _ & Hhas).
    repeat split; assumption.
Qed.

(** X14.  On the main thread, for an instance that has looked up nothing
    yet and holds no track info: [clapInit] returns what the author's
    [init] answers, having run it once and reported nothing; the track
    info is marked as held exactly when the host offers the track-info
    interface with a [get] that succeeds, and the lifecycle state is
    untouched. *)
Theorem clapInit_on_main_thread (t : thread) (p : Plugin A)
    (Hfresh : undiscovered p) (Hnone : hasTrackInfo_ p = false)
    (Hon : mainThreadPasses t (discovered p) = true) :
  exists q,
    clapInit NDEBUG t p = Returned (fst (init (derived p))) q /\
    derived q = snd (init (derived p)) /\
    trace q = Invoked H_init :: trace p /\
    hasTrackInfo_ q
    = track_info_fetched
        (resolve as_track_info (host_ p) CLAP_EXT_TRACK_INFO) /\
    slots_wired (plugin_ q) /\
    lifecycle q = lifecycle p.
Proof.
  destruct (discovered_untouched p) as (Htr & Hder & Hlife & _ & Hhas).
  destruct (discovered_resolves p Hfresh) as (_ & _ & Rti & _).
  rewrite <- Rti.
  rewrite (clapInit_after_lookup t p Hfresh).
  unfold bind at 1.
  rewrite (ensureMainThread_pass _ t (wired (discovered p)) Hon).
  unfold initTrackInfo, bind, this, assert, modify, ret, invoke.
  rewrite (checkMainThread_pass t (wired (discovered p)) Hon).
  change (hasTrackInfo_ (wired (discovered p)))
    with (hasTrackInfo_ (discovered p)).
  rewrite Hhas, Hnone. cbn [negb]. rewrite orb_true_r.
  unfold canUseTrackInfo.
  change (hostTrackInfo_ (wired (discovered p)))
    with (hostTrackInfo_ (discovered p)).
  rewrite <- Hder, <- Htr, <- Hlife.
  destruct (hostTrackInfo_ (discovered p)) as [[[[info | ] | ]] | ];
    cbn;
    destruct (init (derived (discovered p))) as [ok a];
    eexists; (split; [ reflexivity | ]); cbn;
    rewrite ?Hhas, ?Hnone; repeat split.
Qed.

(** X15.  [initInterfaces] asserts that each pointer is still null: in a
    build with assertions, [clapInit] on an instance that has any host
    interface stored already stops at an assertion, before the thread is
    checked and before the author's [init] runs; only slots and interface
    pointers have been written by then. *)
Theorem clapInit_again_stops_at_assertion (t : thread) (p : Plugin A)
    (Hstored :
       hostLog_ p <> None \/ hostThreadCheck_ p <> None \/
       hostTrackInfo_ p <> None \/ exists k, hostStored_ p k <> None) :
  exists q,
    clapInit false t p = AssertFailed q /\
    trace q = trace p /\ derived q = derived p /\
    lifecycle q = lifecycle p /\ hasTrackInfo_ q = hasTrackInfo_ p.
Proof.
  unfold clapInit, initInterfaces, initStored, initInterface.
  unfold bind, this, assert, modify, ret. cbn.
  destruct (host_extension (host_ p)) as [lookup | ] eqn:Hhost;
    (destruct (hostLog_ p) eqn:Hlog; cbn; rewrite ?Hhost; cbn;
     [ eexists; repeat split | ]);
    (destruct (hostThreadCheck_ p) eqn:Htc; cbn; rewrite ?Hhost; cbn;
     [ eexists; repeat split | ]);
    (destruct (hostStored_ p ThreadPool) eqn:H1; cbn; rewrite ?Hhost; cbn;
     [ eexists; repeat split | ]);
    (destruct (hostStored_ p AudioPorts) eqn:H2; cbn; rewrite ?Hhost; cbn;
     [ eexists; repeat split | ]);
    (destruct (hostStored_ p EventLoop) eqn:H3; cbn; rewrite ?Hhost; cbn;
     [ eexists; repeat split | ]);
    (destruct (hostStored_ p EventFilter) eqn:H4; cbn; rewrite ?Hhost; cbn;
     [ eexists; repeat split | ]);
    (destruct (hostStored_ p FileReference) eqn:H5; cbn; rewrite ?Hhost;
     cbn; [ eexists; repeat split | ]);
    (destruct (hostStored_ p Latency) eqn:H6; cbn; rewrite ?Hhost; cbn;
     [ eexists; repeat split | ]);
    (destruct (hostStored_ p Gui) eqn:H7; cbn; rewrite ?Hhost; cbn;
     [ eexists; repeat split | ]);
    (destruct (hostStored_ p Params) eqn:H8; cbn; rewrite ?Hhost; cbn;
     [ eexists; repeat split | ]);
    (destruct (hostTrackInfo_ p) eqn:Hti; cbn; rewrite ?Hhost; cbn;
     [ eexists; repeat split | ]);
    (destruct (hostStored_ p State) eqn:H9; cbn; rewrite ?Hhost; cbn;
     [ eexists; repeat split | ]);
    (destruct (hostStored_ p NoteName) eqn:H10; cbn; rewrite ?Hhost; cbn;
     [ eexists; repeat split | ]);
    exfalso;
    destruct Hstored as [H | [H | [H | (k & H)]]];
    try (apply H; reflexivity);
    destruct k; apply H; assumption.
Qed.

(** *** A session *)

(** X16.  A well-behaved session reaches the author and leaves no
    diagnostic: on an inactive instance that is not processing and whose
    author accepts to activate and to start, [activate] on the main thread, then [start_processing]
    and [process] on the audio thread hand back the author's status, the
    only events being the four methods of the author; after
    [stop_processing] a further [process] is refused with
    [CLAP_PROCESS_ERROR]. *)
Theorem session_reaches_author (sample_rate : Z) (block : clap_process)
    (tm ta : thread) (p : Plugin A)
    (Hmain : mainThreadPasses tm p = true)
    (Haudio : audioThreadPasses ta p = true)
    (Hinactive : Inactive p) (Hidle : isProcessing_ p = false)
    (Hpositive : 0 < sample_rate)
    (Hactivate : fst (activate sample_rate (derived p)) = true)
    (Hstart :
       fst (startProcessing (snd (activate sample_rate (derived p))))
       = true) :
  let a2 := snd (startProcessing (snd (activate sample_rate (derived p)))) in
  exists p1 p2 p3 p4,
    clapActivate NDEBUG sample_rate tm p = Returned true p1 /\
    clapStartProcessing ta p1 = Returned true p2 /\
    clapProcess block ta p2 = Returned (fst (process block a2)) p3 /\
    clapStopProcessing ta p3 = Returned tt p4 /\
    trace p4
    = Invoked H_stopProcessing :: Invoked H_process
      :: Invoked H_startProcessing :: Invoked H_activate :: trace p /\
    derived p4 = stopProcessing (snd (process block a2)) /\
    lifecycle p4 = (true, false, sample_rate) /\
    rejected H_process CLAP_PROCESS_ERROR (clapProcess block ta p4) p4.
Proof.
  destruct Hinactive as [Ha Hs]. cbn zeta.
  assert (Hrun1 :
    clapActivate NDEBUG sample_rate tm p
    = Returned true
        (set_sampleRate_ sample_rate
           (set_isActive_ true
              (set_derived (snd (activate sample_rate (derived p)))
                 (record (Invoked H_activate) p))))).
  { unfold clapActivate; step_in Hmain. rewrite Ha. cbn beta iota.
    apply Z.leb_gt in Hpositive. rewrite Hpositive.
    unfold assert. rewrite Ha, Hs. cbn [negb Z.eqb].
    rewrite !orb_true_r. cbn beta iota.
    destruct (activate sample_rate (derived p)) as [ok a].
    simpl in Hactivate. subst ok. reflexivity. }
  set (p1 := set_sampleRate_ sample_rate _) in Hrun1.
  pose proof (clapStartProcessing_run ta p1 Haudio eq_refl Hidle) as Hrun2.
  change (derived p1) with (snd (activate sample_rate (derived p))) in Hrun2.
  rewrite Hstart in Hrun2.
  set (p2 := set_isProcessing_ true _) in Hrun2.
  pose proof (clapProcess_run block ta p2 Haudio eq_refl eq_refl) as Hrun3.
  change (derived p2)
    with (snd (startProcessing (snd (activate sample_rate (derived p)))))
    in Hrun3.
  set (p3 := set_derived _ (record (Invoked H_process) p2)) in Hrun3.
  pose proof (clapStopProcessing_run ta p3 Haudio eq_refl eq_refl) as Hrun4.
  set (p4 := set_isProcessing_ false _) in Hrun4.
  exists p1, p2, p3, p4.
  repeat match goal with |- _ /\ _ => split end;
    try assumption; try reflexivity.
  apply clapProcess_refused; [ exact Haudio | reflexivity ].
Qed.

(** *** The cost of the validity scan *)

Lemma isValidParamId_from_cost (n : nat) (param_id : clap_id) (t : thread) :
  forall (i : Z) (p : Plugin A),
  exists k b,
    isValidParamId_from n i param_id t p
    = Returned b (records (repeat (Invoked H_paramsInfo) k) p) /\
    (k <= n)%nat /\ (b = false -> k = n).
Proof.
  induction n as [ | n IH ]; intros i p.
  - exists O, false. repeat split. apply le_n.
  - cbn [isValidParamId_from]. unfold bind, invoke_const, ret.
    pose (p1 := record (Invoked H_paramsInfo) p).
    destruct (IH (i + 1) p1) as (k & b & Hrun & Hle & Hall).
    assert (Hshift :
      records (repeat (Invoked H_paramsInfo) k) p1
      = records (repeat (Invoked H_paramsInfo) (S k)) p).
    { rewrite (repeat_cons k (Invoked H_paramsInfo) : repeat _ (S k) = _).
      rewrite records_app. reflexivity. }
    destruct (paramsInfo i (derived p)) as [info | ].
    + destruct (Z.eqb (id info) param_id).
      * exists 1%nat, true. repeat split.
        -- apply le_n_S, le_0_n.
        -- discriminate.
      * exists (S k), b. fold p1. rewrite Hrun, Hshift. repeat split.
        -- apply le_n_S, Hle.
        -- intros Hb. f_equal. exact (Hall Hb).
    + exists (S k), b. fold p1. rewrite Hrun, Hshift. repeat split.
      * apply le_n_S, Hle.
      * intros Hb. f_equal. exact (Hall Hb).
Qed.

(** X17.  On the main thread, the validity scan always returns, having
    asked the author for the count once and for at most that many
    entries, for exactly that many when the id is not found; nothing else
    of the object changes. *)
Theorem isValidParamId_cost (param_id : clap_id) (t : thread)
    (p : Plugin A)
    (Hthread : mainThreadPasses t p = true) :
  exists k b,
    isValidParamId param_id t p
    = Returned b
        (records
           (repeat (Invoked H_paramsInfo) k ++ [Invoked H_paramsCount]) p) /\
    Z.of_nat k <= to_uint32 (paramsCount (derived p)) /\
    (b = false -> Z.of_nat k = to_uint32 (paramsCount (derived p))).
Proof.
  unfold isValidParamId, bind, invoke_const.
  rewrite (checkMainThread_pass _ _ Hthread).
  set (count := to_uint32 (paramsCount (derived p))).
  destruct (isValidParamId_from_cost (Z.to_nat count) param_id t 0
              (record (Invoked H_paramsCount) p))
    as (k & b & Hrun & Hle & Hall).
  assert (Hcount : 0 <= count) by apply to_uint32_range.
  exists k, b. rewrite Hrun, records_app.
  split; [ reflexivity | ]. split.
  - lia.
  - intros Hb. rewrite (Hall Hb). lia.
Qed.

End FurtherProperties.

(** ** Properties of the comparison of audio-port descriptors *)

Section AudioPortsProperties.

Variable CLAP_AUDIO_PORTS_RESCAN_ALL : Z.
Variable CLAP_AUDIO_PORTS_RESCAN_NAMES : Z.
Variable CLAP_NAME_SIZE : nat.

Lemma nat_of_ascii_differs (c1 c2 : ascii) :
  c1 <> c2 -> Z.of_nat (nat_of_ascii c1) - Z.of_nat (nat_of_ascii c2) <> 0.
Proof.
  intros Hne Heq. apply Hne.
  rewrite <- (ascii_nat_embedding c1), <- (ascii_nat_embedding c2).
  f_equal. lia.
Qed.

(** [strncmp] answers 0 exactly when the two arrays hold the same C
    string. *)
Lemma strncmp_zero_iff (n : nat) :
  forall s1 s2, strncmp s1 s2 n = 0 <-> c_str n s1 = c_str n s2.
Proof.
  induction n as [ | n IH ]; intros s1 s2; cbn [strncmp c_str].
  - split; reflexivity.
  - destruct s1 as [ | c1 r1 ], s2 as [ | c2 r2 ]; cbn [hd tl].
    + rewrite Ascii.eqb_refl. cbn. split; reflexivity.
    + destruct (Ascii.eqb_spec zero c2) as [ <- | Hne ]; cbn [negb].
      * rewrite Ascii.eqb_refl. split; reflexivity.
      * destruct (Ascii.eqb_spec c2 zero) as [ -> | _ ];
          [ contradiction | ].
        split; [ | discriminate ].
        intros H. exfalso. exact (nat_of_ascii_differs _ _ Hne H).
    + destruct (Ascii.eqb_spec c1 zero) as [ -> | Hne ]; cbn [negb].
      * split; reflexivity.
      * split; [ | discriminate ].
        intros H. exfalso. exact (nat_of_ascii_differs _ _ Hne H).
    + destruct (Ascii.eqb_spec c1 c2) as [ <- | Hne ]; cbn [negb].
      * destruct (Ascii.eqb_spec c1 zero) as [ -> | Hnz ].
        -- split; reflexivity.
        -- rewrite IH. split; [ intros ->; reflexivity | ].
           intros [= H]. exact H.
      * split.
        -- intros H. exfalso. exact (nat_of_ascii_differs _ _ Hne H).
        -- destruct (Ascii.eqb_spec c1 zero) as [ -> | Hn1 ];
             destruct (Ascii.eqb_spec c2 zero) as [ -> | Hn2 ];
             try discriminate; try contradiction.
           intros [= H _]. contradiction.
Qed.

Lemma structure_differs_iff (a b : clap_audio_port_info) :
  negb (Z.eqb (port_sample_size a) (port_sample_size b))
  || negb (Z.eqb (port_in_place a) (port_in_place b))
  || negb (Z.eqb (port_is_cv a) (port_is_cv b))
  || negb (Z.eqb (port_is_main a) (port_is_main b))
  || negb (Z.eqb (port_channel_count a) (port_channel_count b))
  || negb (Z.eqb (port_channel_map a) (port_channel_map b))
  || negb (Z.eqb (port_id a) (port_id b)) = false
  <-> same_structure a b.
Proof.
  unfold same_structure.
  destruct (Z.eqb_spec (port_sample_size a) (port_sample_size b));
  destruct (Z.eqb_spec (port_in_place a) (port_in_place b));
  destruct (Z.eqb_spec (port_is_cv a) (port_is_cv b));
  destruct (Z.eqb_spec (port_is_main a) (port_is_main b));
  destruct (Z.eqb_spec (port_channel_count a) (port_channel_count b));
  destruct (Z.eqb_spec (port_channel_map a) (port_channel_map b));
  destruct (Z.eqb_spec (port_id a) (port_id b));
    cbn; intuition (try discriminate; try contradiction).
Qed.

(** X18.  [compareAudioPortsInfo] asks for a full rescan as soon as one of
    the seven scalar fields differs, whatever the names; with those equal,
    for a rescan of the names exactly when the two name arrays hold
    different C strings, bytes after the first NUL or beyond the array
    size not counting; and for nothing otherwise. *)
Theorem compareAudioPortsInfo_classifies (a b : clap_audio_port_info) :
  (~ same_structure a b ->
   compareAudioPortsInfo CLAP_AUDIO_PORTS_RESCAN_ALL
     CLAP_AUDIO_PORTS_RESCAN_NAMES CLAP_NAME_SIZE a b
   = CLAP_AUDIO_PORTS_RESCAN_ALL) /\
  (same_structure a b ->
   c_str CLAP_NAME_SIZE (port_name a) <> c_str CLAP_NAME_SIZE (port_name b) ->
   compareAudioPortsInfo CLAP_AUDIO_PORTS_RESCAN_ALL
     CLAP_AUDIO_PORTS_RESCAN_NAMES CLAP_NAME_SIZE a b
   = CLAP_AUDIO_PORTS_RESCAN_NAMES) /\
  (same_structure a b ->
   c_str CLAP_NAME_SIZE (port_name a) = c_str CLAP_NAME_SIZE (port_name b) ->
   compareAudioPortsInfo CLAP_AUDIO_PORTS_RESCAN_ALL
     CLAP_AUDIO_PORTS_RESCAN_NAMES CLAP_NAME_SIZE a b
   = 0).
Proof.
  unfold compareAudioPortsInfo.
  pose proof (structure_differs_iff a b) as Hstruct.
  pose proof (strncmp_zero_iff CLAP_NAME_SIZE (port_name a) (port_name b))
    as Hname.
  match goal with
  | |- context [ if ?c then CLAP_AUDIO_PORTS_RESCAN_ALL else _ ] =>
      destruct c
  end.
  - split; [ reflexivity | ].
    split; intros Hsame; apply Hstruct in Hsame; discriminate.
  - split; [ intros Hdiff; exfalso; apply Hdiff, Hstruct; reflexivity | ].
    destruct (Z.eqb_spec
                (strncmp (port_name a) (port_name b) CLAP_NAME_SIZE) 0)
      as [Hz | Hnz]; cbn [negb].
    + split; [ | reflexivity ].
      intros _ Hdiff. exfalso. apply Hdiff, Hname, Hz.
    + split; [ reflexivity | ].
      intros _ Heq. exfalso. apply Hnz, Hname, Heq.
Qed.

(** X19.  The comparison does not depend on the order of its two
    descriptors. *)
Theorem compareAudioPortsInfo_symmetric (a b : clap_audio_port_info) :
  compareAudioPortsInfo CLAP_AUDIO_PORTS_RESCAN_ALL
    CLAP_AUDIO_PORTS_RESCAN_NAMES CLAP_NAME_SIZE a b
  = compareAudioPortsInfo CLAP_AUDIO_PORTS_RESCAN_ALL
      CLAP_AUDIO_PORTS_RESCAN_NAMES CLAP_NAME_SIZE b a.
Proof.
  unfold compareAudioPortsInfo.
  rewrite (Z.eqb_sym (port_sample_size a)), (Z.eqb_sym (port_in_place a)),
    (Z.eqb_sym (port_is_cv a)), (Z.eqb_sym (port_is_main a)),
    (Z.eqb_sym (port_channel_count a)), (Z.eqb_sym (port_channel_map a)),
    (Z.eqb_sym (port_id a)).
  match goal with
  | |- context [ if ?c then CLAP_AUDIO_PORTS_RESCAN_ALL else _ ] =>
      destruct c
  end; [ reflexivity | ].
  pose proof (strncmp_zero_iff CLAP_NAME_SIZE (port_name a) (port_name b))
    as Hab.
  pose proof (strncmp_zero_iff CLAP_NAME_SIZE (port_name b) (port_name a))
    as Hba.
  destruct (Z.eqb_spec
              (strncmp (port_name a) (port_name b) CLAP_NAME_SIZE) 0)
    as [Hz | Hnz];
  destruct (Z.eqb_spec
              (strncmp (port_name b) (port_name a) CLAP_NAME_SIZE) 0)
    as [Hz' | Hnz']; try reflexivity; exfalso.
  - apply Hnz', Hba. symmetry. apply Hab, Hz.
  - apply Hnz, Hab. symmetry. apply Hba, Hz'.
Qed.

(** X20.  Where the two rescan flags are not 0, the answer 0 means that
    nothing the host shows has changed: the seven scalar fields are equal
    and the names are the same C string. *)
Theorem compareAudioPortsInfo_zero_iff (a b : clap_audio_port_info)
    (Hall : CLAP_AUDIO_PORTS_RESCAN_ALL <> 0)
    (Hnames : CLAP_AUDIO_PORTS_RESCAN_NAMES <> 0) :
  compareAudioPortsInfo CLAP_AUDIO_PORTS_RESCAN_ALL
    CLAP_AUDIO_PORTS_RESCAN_NAMES CLAP_NAME_SIZE a b
  = 0
  <-> same_structure a b /\
      c_str CLAP_NAME_SIZE (port_name a) = c_str CLAP_NAME_SIZE (port_name b).
Proof.
  unfold compareAudioPortsInfo.
  pose proof (structure_differs_iff a b) as Hstruct.
  pose proof (strncmp_zero_iff CLAP_NAME_SIZE (port_name a) (port_name b))
    as Hname.
  match goal with
  | |- context [ if ?c then CLAP_AUDIO_PORTS_RESCAN_ALL else _ ] =>
      destruct c
  end.
  - split; [ intros H; contradiction | ].
    intros [Hsame _]. apply Hstruct in Hsame. discriminate.
  - destruct (Z.eqb_spec
                (strncmp (port_name a) (port_name b) CLAP_NAME_SIZE) 0)
      as [Hz | Hnz]; cbn [negb].
    + split; [ | reflexivity ].
      intros _. split; [ apply Hstruct; reflexivity | apply Hname, Hz ].
    + split; [ intros H; contradiction | ].
      intros [_ Heq]. exfalso. apply Hnz, Hname, Heq.
Qed.

End AudioPortsProperties.

(** ** The further properties at work on the demo plugin *)

Lemma demo_new_undiscovered (host : clap_host) (d : demo) :
  undiscovered (Plugin_new (headers := demoHeaders) "demo" host d).
Proof. repeat split. Qed.

Lemma clapStartProcessing_cases_demo :
  (exists msg,
     clapStartProcessing (author := demoAuthor) AudioThread
       (initialised checkingHost demoPlugin)
     = Returned false (report msg (initialised checkingHost demoPlugin))) /\
  (exists p',
     clapStartProcessing (author := demoAuthor) AudioThread
       (activated checkingHost demoPlugin)
     = Returned true p' /\
     isProcessing_ p' = true).
Proof.
  split.
  - exact (proj1 (clapStartProcessing_cases (author := demoAuthor)
                    AudioThread (initialised checkingHost demoPlugin)
                    eq_refl) eq_refl).
  - destruct (proj2 (proj2 (clapStartProcessing_cases (author := demoAuthor)
                              AudioThread (activated checkingHost demoPlugin)
                              eq_refl)) eq_refl eq_refl)
      as (p' & Hrun & Hproc & _).
    exists p'. split; [ exact Hrun | exact Hproc ].
Defined.

Lemma clapStopProcessing_cases_demo :
  (exists msg,
     clapStopProcessing (author := demoAuthor) AudioThread
       (activated checkingHost demoPlugin)
     = Returned tt (report msg (activated checkingHost demoPlugin))) /\
  (exists p',
     clapStopProcessing (author := demoAuthor) AudioThread
       (started checkingHost demoPlugin)
     = Returned tt p' /\
     isProcessing_ p' = false /\ isActive_ p' = true).
Proof.
  split.
  - exact (proj1 (clapStopProcessing_cases (author := demoAuthor)
                    AudioThread (activated checkingHost demoPlugin)
                    eq_refl) eq_refl).
  - destruct (proj2 (clapStopProcessing_cases (author := demoAuthor)
                       AudioThread (started checkingHost demoPlugin)
                       eq_refl) eq_refl)
      as (p' & Hrun & Hproc & Hact & _).
    exists p'. repeat split; assumption.
Defined.

Lemma clapStartProcessing_twice_demo :
  exists p1 p2,
    clapStartProcessing (author := demoAuthor) AudioThread
      (activated checkingHost demoPlugin)
    = Returned true p1 /\
    clapStartProcessing (author := demoAuthor) AudioThread p1
    = Returned true p2 /\
    invocations H_startProcessing (trace p2)
    = S (invocations H_startProcessing
           (trace (activated checkingHost demoPlugin))) /\
    derived p2
    = snd (startProcessing (PluginAuthor := demoAuthor)
             (derived (activated checkingHost demoPlugin))).
Proof.
  exact (clapStartProcessing_twice (author := demoAuthor) AudioThread
           (activated checkingHost demoPlugin) eq_refl eq_refl eq_refl
           eq_refl).
Defined.

Lemma lifecycle_invariant_demo :
  lifecycle_ok (started checkingHost demoPlugin).
Proof.
  pose proof (lifecycle_invariant (author := demoAuthor) false) as [Hnew Hstep].
  pose proof (Hnew "demo" checkingHost demoPlugin) as H0.
  pose proof (proj1 (Hstep MainThread _ H0)) as H1.
  pose proof (proj1 (proj2 (Hstep MainThread _ H1)) 44100) as H2.
  exact (proj1 (proj2 (proj2 (proj2 (Hstep AudioThread _ H2))))).
Defined.

Lemma demo_activated_ok :
  lifecycle_ok (activated checkingHost demoPlugin).
Proof. split; [ reflexivity | intros _; reflexivity ]. Qed.

Lemma demo_initialised_ok :
  lifecycle_ok (initialised checkingHost demoPlugin).
Proof. split; [ reflexivity | discriminate ]. Qed.

Lemma sampleRate_cases_demo :
  sampleRate false WorkerThread (activated checkingHost demoPlugin)
  = Returned 44100 (activated checkingHost demoPlugin) /\
  sampleRate false WorkerThread (initialised checkingHost demoPlugin)
  = AssertFailed (initialised checkingHost demoPlugin).
Proof.
  split.
  - exact (proj1 (proj1 (sampleRate_cases false WorkerThread
                           (activated checkingHost demoPlugin)
                           demo_activated_ok) eq_refl)).
  - exact (proj1 (proj2 (sampleRate_cases false WorkerThread
                           (initialised checkingHost demoPlugin)
                           demo_initialised_ok) eq_refl)).
Defined.

Lemma sampleRate_reads_back_activation_demo :
  exists p',
    clapActivate (author := demoAuthor) false 48000 MainThread
      (initialised checkingHost demoPlugin)
    = Returned true p' /\
    forall t', sampleRate false t' p' = Returned 48000 p'.
Proof.
  apply (sampleRate_reads_back_activation (author := demoAuthor) false 48000
           MainThread (initialised checkingHost demoPlugin) eq_refl
           (conj eq_refl eq_refl)).
  - lia.
  - reflexivity.
Defined.

Lemma main_thread_entries_stop_off_thread_demo :
  (exists msg,
     clapActivate (author := demoAuthor) false 44100 AudioThread
       (initialised checkingHost demoPlugin)
     = Terminated (report msg (initialised checkingHost demoPlugin))) /\
  (exists msg,
     clapParamsValue (author := demoAuthor) 20 AudioThread
       (initialised checkingHost demoPlugin)
     = Terminated (report msg (initialised checkingHost demoPlugin))).
Proof.
  pose proof (main_thread_entries_stop_off_thread (author := demoAuthor)
                false AudioThread (initialised checkingHost demoPlugin)
                eq_refl)
    as (Hactivate & _ & _ & _ & _ & _ & _ & Hvalue & _).
  split; [ exact (Hactivate 44100) | exact (Hvalue 20) ].
Defined.

Lemma audio_thread_entries_stop_off_thread_demo :
  exists msg,
    clapProcess (author := demoAuthor) 7 MainThread
      (started checkingHost demoPlugin)
    = Terminated (report msg (started checkingHost demoPlugin)).
Proof.
  pose proof (audio_thread_entries_stop_off_thread (author := demoAuthor)
                MainThread (started checkingHost demoPlugin) eq_refl)
    as (_ & _ & Hprocess).
  exact (Hprocess 7).
Defined.

Lemma clapParamsSetValue_while_active_demo :
  exists msg,
    clapParamsSetValue (author := demoAuthor) 20 5 0 MainThread
      (activated checkingHost demoPlugin)
    = Returned false (report msg (activated checkingHost demoPlugin)).
Proof.
  exact (clapParamsSetValue_while_active (author := demoAuthor) 20 5 0
           MainThread (activated checkingHost demoPlugin) eq_refl eq_refl).
Defined.

Lemma demo_count_small :
  0 <= paramsCount (PluginAuthor := demoAuthor)
         (derived (initialised bareHost demoPlugin)) < 2 ^ 31.
Proof. vm_compute. split; [ discriminate | reflexivity ]. Qed.

Lemma clapParamsIinfo_by_range_demo :
  result (clapParamsIinfo (author := demoAuthor) 1 MainThread
            (initialised bareHost demoPlugin))
  = Some (Some {| id := 20 |}) /\
  rejected H_paramsInfo None
    (clapParamsIinfo (author := demoAuthor) 3 MainThread
       (initialised bareHost demoPlugin))
    (initialised bareHost demoPlugin).
Proof.
  split.
  - rewrite (proj1 (clapParamsIinfo_by_range (author := demoAuthor) 1
                      MainThread (initialised bareHost demoPlugin) eq_refl
                      demo_count_small)).
    + reflexivity.
    + vm_compute. split; [ discriminate | reflexivity ].
  - apply (proj2 (clapParamsIinfo_by_range (author := demoAuthor) 3
                    MainThread (initialised bareHost demoPlugin) eq_refl
                    demo_count_small)).
    vm_compute. split; [ discriminate | reflexivity ].
Defined.

Lemma clapInit_discovers_demo :
  hostThreadCheck_ (initialised checkingHost demoPlugin)
  = resolve as_thread_check checkingHost "clap/thread-check" /\
  undiscovered (initialised bareHost demoPlugin).
Proof.
  split.
  - exact (proj1 (proj2 (clapInit_discovers (author := demoAuthor) false
                           MainThread
                           (Plugin_new (headers := demoHeaders) "demo"
                              checkingHost demoPlugin)
                           (demo_new_undiscovered checkingHost demoPlugin)))).
  - apply (clapInit_discovers (author := demoAuthor) false MainThread
             (Plugin_new (headers := demoHeaders) "demo" bareHost demoPlugin)
             (demo_new_undiscovered bareHost demoPlugin)).
    reflexivity.
Defined.

Lemma clapInit_off_main_thread_demo :
  exists msg q,
    clapInit (author := demoAuthor) false AudioThread
      (Plugin_new (headers := demoHeaders) "demo" checkingHost demoPlugin)
    = Terminated (report msg q) /\
    trace q = [] /\ derived q = demoPlugin.
Proof.
  destruct (clapInit_off_main_thread (author := demoAuthor) false AudioThread
              (Plugin_new (headers := demoHeaders) "demo" checkingHost
                 demoPlugin)
              (demo_new_undiscovered checkingHost demoPlugin) eq_refl)
    as (msg & Hrun & Htr & Hder & _).
  exists msg. eexists. split; [ exact Hrun | ].
  split; [ exact Htr | exact Hder ].
Defined.

Lemma clapInit_on_main_thread_demo :
  exists q,
    clapInit (author := demoAuthor) false MainThread
      (Plugin_new (headers := demoHeaders) "demo" checkingHost demoPlugin)
    = Returned true q /\
    trace q = [Invoked H_init] /\ hasTrackInfo_ q = false.
Proof.
  destruct (clapInit_on_main_thread (author := demoAuthor) false MainThread
              (Plugin_new (headers := demoHeaders) "demo" checkingHost
                 demoPlugin)
              (demo_new_undiscovered checkingHost demoPlugin) eq_refl
              eq_refl)
    as (q & Hrun & _ & Htr & Hhas & _).
  exists q. split; [ exact Hrun | ]. split; [ exact Htr | exact Hhas ].
Defined.

Lemma demo_log_stored :
  hostLog_ (initialised checkingHost demoPlugin) <> None.
Proof. vm_compute. discriminate. Qed.

Lemma clapInit_again_stops_at_assertion_demo :
  exists q,
    clapInit (author := demoAuthor) false MainThread
      (initialised checkingHost demoPlugin)
    = AssertFailed q /\
    trace q = trace (initialised checkingHost demoPlugin).
Proof.
  destruct (clapInit_again_stops_at_assertion (author := demoAuthor)
              MainThread (initialised checkingHost demoPlugin)
              (or_introl demo_log_stored))
    as (q & Hrun & Htr & _).
  exists q. split; [ exact Hrun | exact Htr ].
Defined.

Lemma session_reaches_author_demo :
  exists p1 p2 p3 p4,
    clapActivate (author := demoAuthor) false 44100 MainThread
      (initialised checkingHost demoPlugin)
    = Returned true p1 /\
    clapStartProcessing (author := demoAuthor) AudioThread p1
    = Returned true p2 /\
    clapProcess (author := demoAuthor) 7 AudioThread p2 = Returned 8 p3 /\
    clapStopProcessing (author := demoAuthor) AudioThread p3
    = Returned tt p4 /\
    lifecycle p4 = (true, false, 44100) /\
    rejected H_process 0
      (clapProcess (author := demoAuthor) 7 AudioThread p4) p4.
Proof.
  destruct (session_reaches_author (author := demoAuthor) false 44100 7
              MainThread AudioThread (initialised checkingHost demoPlugin)
              eq_refl eq_refl (conj eq_refl eq_refl) eq_refl eq_refl eq_refl
              eq_refl)
    as (p1 & p2 & p3 & p4 & H1 & H2 & H3 & H4 & _ & _ & Hlife & Hrej).
  exists p1, p2, p3, p4. repeat split; assumption.
Defined.

Lemma isValidParamId_cost_demo :
  exists k b,
    result (isValidParamId (author := demoAuthor) 99 MainThread
              (initialised bareHost demoPlugin))
    = Some b /\
    Z.of_nat k <= 3.
Proof.
  destruct (isValidParamId_cost (author := demoAuthor) 99 MainThread
              (initialised bareHost demoPlugin) eq_refl)
    as (k & b & Hrun & Hle & _).
  exists k, b. rewrite Hrun. split; [ reflexivity | exact Hle ].
Defined.

Lemma demo_ports_same_structure :
  same_structure demoPortA demoPortB /\ same_structure demoPortA demoPortC.
Proof. split; repeat split. Qed.

Lemma compareAudioPortsInfo_classifies_demo :
  compareAudioPortsInfo 1 2 256 demoPortA demoPortB = 0 /\
  compareAudioPortsInfo 1 2 256 demoPortA demoPortC = 2.
Proof.
  split.
  - apply (compareAudioPortsInfo_classifies 1 2 256 demoPortA demoPortB).
    + exact (proj1 demo_ports_same_structure).
    + reflexivity.
  - apply (compareAudioPortsInfo_classifies 1 2 256 demoPortA demoPortC).
    + exact (proj2 demo_ports_same_structure).
    + vm_compute. discriminate.
Defined.

Lemma compareAudioPortsInfo_zero_iff_demo :
  same_structure demoPortA demoPortB /\
  c_str 256 (port_name demoPortA) = c_str 256 (port_name demoPortB).
Proof.
  apply (compareAudioPortsInfo_zero_iff 1 2 256 demoPortA demoPortB).
  - discriminate.
  - discriminate.
  - reflexivity.
Defined.

End clap.
